(** * pysmartthings: the request engine of [pysmartthings/api.py]

    A shallow embedding of the two request engines of the module, the
    asynchronous class [Api] and the synchronous class [api_old], together
    with the properties of single requests (status classification, the
    Authorization header) and of paged listings (accumulation, error
    propagation, the next link).

    Python values are embedded as the inductive [value]; a raised exception
    is the outcome [Raise]; the HTTP peer is a function from the requests
    made so far and the current request to a reply; the [while] loop of the
    paged listings runs on fuel. *)

From Stdlib Require Import ZArith List String Ascii Bool Lia PrimFloat.
Import ListNotations.

Set Warnings "-register-all".

Local Open Scope string_scope.
Local Open Scope Z_scope.
Local Open Scope list_scope.

(** ** Python values *)

(** What [json.loads] can produce: [None], booleans, integers, floats,
    strings, lists and dicts.  A dict keeps its entries in insertion order,
    which iteration over it observes, so it is an association list. *)
Inductive value : Type :=
| VNone
| VBool (b : bool)
| VInt (z : Z)
| VFloat (f : float)
| VStr (s : string)
| VList (l : list value)
| VDict (d : list (string * value)).

(** Python truth value testing, as used by [if not links] and
    [while next_link]. *)
Definition truthy (v : value) : bool :=
  match v with
  | VNone => false
  | VBool b => b
  | VInt z => negb (z =? 0)
  | VFloat f => negb (PrimFloat.eqb f 0%float)
  | VStr s => match s with EmptyString => false | String _ _ => true end
  | VList l => match l with [] => false | _ :: _ => true end
  | VDict d => match d with [] => false | _ :: _ => true end
  end.

(** Lookup of a key in the entries of a dict. *)
Fixpoint assoc (k : string) (d : list (string * value)) : option value :=
  match d with
  | [] => None
  | (k', v) :: d' => if String.eqb k k' then Some v else assoc k d'
  end.

(** ** Requests, replies and exceptions *)

(** The arguments of one call of [ClientSession.request] or
    [requests.request]: method, url, [params=], [json=], [headers=]. *)
Record Request : Type := mkRequest {
  req_method : string;
  req_url : value;
  req_params : value;
  req_json : value;
  req_headers : list (string * string)
}.

(** aiohttp's [RequestInfo]: the url, method and headers of the request a
    response answers.  (aiohttp merges [params] into the url and normalises
    the method's case; here both are kept as they were passed.) *)
Record RequestInfo : Type := mkRequestInfo {
  ri_url : value;
  ri_params : value;
  ri_method : string;
  ri_headers : list (string * string)
}.

(** Modelled from the spec: the classes [APIResponseError],
    [APIUnauthorizedError], [APIForbiddenError] and [APIUnknownError] of
    [errors.py], which is not among the sources.  [APIResponseError] is the
    error that carries status, reason, optional decoded body and request
    context, with the arguments [Api.request] passes to it; the other three
    are raised without arguments.  The remaining constructors are Python's
    own exceptions and aiohttp's: [ClientResponseError] is what
    [raise_for_status] raises, [JSONDecodeError] and [ContentTypeError] are
    what decoding a body can raise, [ClientConnectionError] is a failure of
    the transport. *)
Inductive exn : Type :=
| AttributeError (attr : string)
| TypeError
| KeyError (key : string)
| JSONDecodeError
| ContentTypeError
| ClientConnectionError
| ClientResponseError (request_info : RequestInfo) (history : list RequestInfo)
    (status : Z) (message : string) (headers : list (string * string))
| APIResponseError (request_info : RequestInfo) (history : list RequestInfo)
    (status : Z) (message : string) (headers : list (string * string))
    (data : value)
| APIUnauthorizedError
| APIForbiddenError
| APIUnknownError.

(** What the peer sends back for one request: status line, headers, the
    outcome of decoding the body as JSON (the decoded value, or the exception
    [.json()] raises), and the redirects that were followed. *)
Record Reply : Type := mkReply {
  status : Z;
  reason : string;
  headers : list (string * string);
  json : exn + value;
  history : list RequestInfo
}.

(** The HTTP peer together with the transport: its answer to a request may
    depend on all the requests made before.  [inl e] is a transport failure
    (no HTTP response at all). *)
Definition Server : Type := list Request -> Request -> exn + Reply.

(** ** Outcomes and the request monad *)

Inductive outcome (A : Type) : Type :=
| Return (a : A)
| Raise (e : exn)
| OutOfFuel.
Arguments Return {A} a.
Arguments Raise {A} e.
Arguments OutOfFuel {A}.

(** A computation reads and extends the log of the requests made so far. *)
Definition M (A : Type) : Type := list Request -> outcome A * list Request.

Definition ret {A} (a : A) : M A := fun log => (Return a, log).
Definition raise {A} (e : exn) : M A := fun log => (Raise e, log).
Definition out_of_fuel {A} : M A := fun log => (OutOfFuel, log).

Definition bind {A B} (c : M A) (k : A -> M B) : M B :=
  fun log =>
    match c log with
    | (Return a, log') => k a log'
    | (Raise e, log') => (Raise e, log')
    | (OutOfFuel, log') => (OutOfFuel, log')
    end.

Definition lift {A} (o : outcome A) : M A := fun log => (o, log).

Declare Scope py_scope.
Delimit Scope py_scope with py.
Notation "x <- c ;; k" := (bind c (fun x => k))
  (at level 61, c at next level, right associativity) : py_scope.
Notation "c ;;; k" := (bind c (fun _ => k))
  (at level 61, right associativity) : py_scope.
Local Open Scope py_scope.

(** ** Operations on values *)

(** [obj.get(key, default)]: only a dict has [get]. *)
Definition dict_get (obj : value) (key : string) (default : value)
  : outcome value :=
  match obj with
  | VDict d =>
      Return (match assoc key d with Some v => v | None => default end)
  | _ => Raise (AttributeError "get")
  end.

(** [obj[key]] for a string key. *)
Definition subscript (obj : value) (key : string) : outcome value :=
  match obj with
  | VDict d =>
      match assoc key d with
      | Some v => Return v
      | None => Raise (KeyError key)
      end
  | _ => Raise TypeError
  end.

(** The elements [list.extend] takes from its argument. *)
Definition iterate (v : value) : outcome (list value) :=
  match v with
  | VList l => Return l
  | VStr s => Return (map (fun c => VStr (String c EmptyString)) (list_ascii_of_string s))
  | VDict d => Return (map (fun kv => VStr (fst kv)) d)
  | _ => Raise TypeError
  end.

(** [items.extend(arg)]: the attribute [extend] is looked up on [items]
    first, then [arg] is evaluated, then the elements are appended. *)
Definition extend (items : value) (arg : outcome value) : outcome value :=
  match items with
  | VList l =>
      match arg with
      | Return more =>
          match iterate more with
          | Return xs => Return (VList (l ++ xs))
          | Raise e => Raise e
          | OutOfFuel => OutOfFuel
          end
      | Raise e => Raise e
      | OutOfFuel => OutOfFuel
      end
  | _ => Raise (AttributeError "extend")
  end.

(** [a + b] for a string [a]: [b] must be a string too. *)
Definition str_add (a : string) (b : value) : outcome value :=
  match b with
  | VStr s => Return (VStr (a ++ s)%string)
  | _ => Raise TypeError
  end.

Definition API_BASE : string := "https://api.smartthings.com/v1/".

(** ** class Api *)

Module Api.

(** The fields of an [Api] object; its session is the [Server]. *)
Record t : Type := __init__ {
  _token : string;
  _api_base : string
}.

(** The property [token] and its setter. *)
Definition token (self : t) : string := _token self.

Definition token_setter (self : t) (new_token : string) : t :=
  {| _token := new_token; _api_base := _api_base self |}.

(** aiohttp's [ClientResponse]: the reply, and the [request_info] aiohttp
    records from the request it sent. *)
Record ClientResponse : Type := mkClientResponse {
  reply : Reply;
  request_info : RequestInfo
}.

Definition _get_next_link (data : value) : outcome value :=
  match dict_get data "_links" VNone with
  | Return links =>
      if negb (truthy links) then Return VNone
      else
        match dict_get links "next" VNone with
        | Return next_link =>
            if negb (truthy next_link) then Return VNone
            else dict_get next_link "href" VNone
        | other => other
        end
  | other => other
  end.

(** [ClientResponse.raise_for_status]: raises for a status of 400 or
    more, otherwise does nothing. *)
Definition raise_for_status (resp : ClientResponse) : M unit :=
  if 400 <=? status (reply resp)
  then raise (ClientResponseError (request_info resp)
                (history (reply resp)) (status (reply resp))
                (reason (reply resp)) (headers (reply resp)))
  else ret tt.

(** The request [Api.request] builds: the Authorization header is made
    from the token the object holds when the call is made. *)
Definition build (self : t) (method : string) (url params data : value)
  : Request :=
  mkRequest method url params data
    [("Authorization", ("Bearer " ++ _token self)%string)].

Section WithServer.
Variable server : Server.

(** [self._session.request(...)]: one round trip. *)
Definition session_request (req : Request) : M ClientResponse :=
  fun log =>
    (match server log req with
     | inl e => Raise e
     | inr r =>
         Return (mkClientResponse r
                   (mkRequestInfo (req_url req) (req_params req)
                      (req_method req) (req_headers req)))
     end, log ++ [req]).

Definition request (self : t) (method : string)
    (url params data : value) : M value :=
  resp <- session_request (build self method url params data) ;;
  if status (reply resp) =? 200 then
    lift (match json (reply resp) with
          | inr v => Return v
          | inl e => Raise e
          end)
  else if existsb (Z.eqb (status (reply resp))) [400; 422; 429; 500] then
    let data := match json (reply resp) with
                | inr v => v
                | inl _ => VNone
                end in
    raise (APIResponseError (request_info resp) (history (reply resp))
             (status (reply resp)) (reason (reply resp))
             (headers (reply resp)) data)
  else
    raise_for_status resp ;;; ret VNone.

Definition get (self : t) (resource : string) (params : value)
  : M value :=
  request self "get" (VStr (_api_base self ++ resource)%string) params
    VNone.

(** The [while next_link] loop of [get_items]; one unit of fuel per
    iteration. *)
Fixpoint get_items_while (fuel : nat) (self : t) (params : value)
    (items next_link : value) : M value :=
  if truthy next_link then
    match fuel with
    | O => out_of_fuel
    | S fuel' =>
        resp <- request self "get" next_link params VNone ;;
        items' <- lift (extend items (dict_get resp "items" (VList []))) ;;
        next_link' <- lift (_get_next_link resp) ;;
        get_items_while fuel' self params items' next_link'
    end
  else ret items.

Definition get_items (fuel : nat) (self : t) (resource : string)
    (params : value) : M value :=
  resp <- request self "get" (VStr (_api_base self ++ resource)%string)
            params VNone ;;
  items <- lift (dict_get resp "items" (VList [])) ;;
  next_link <- lift (_get_next_link resp) ;;
  get_items_while fuel self params items next_link.

End WithServer.

End Api.

(** ** class api_old *)

Module api_old.

(** The one field of an [api_old] object: the headers built from the
    token when the object is created. *)
Record t : Type := mk { _headers : list (string * string) }.

Definition __init__ (token : string) : t :=
  {| _headers := [("Authorization", ("Bearer " ++ token)%string)] |}.

Definition _get_next_link (data : value) : outcome value :=
  match dict_get data "_links" VNone with
  | Return links =>
      if negb (truthy links) then Return VNone
      else
        match dict_get links "next" VNone with
        | Return next_link =>
            if negb (truthy next_link) then Return VNone
            else dict_get next_link "href" VNone
        | other => other
        end
  | other => other
  end.

(** [Response.ok] of [requests]: false exactly for the statuses
    [raise_for_status] raises for, 400 to 599. *)
Definition ok (r : Reply) : bool :=
  negb ((400 <=? status r) && (status r <? 600)).

Definition build (self : t) (method : string) (url params data : value)
  : Request :=
  mkRequest method url params data (_headers self).

Section WithServer.
Variable server : Server.

(** [requests.request(...)]: one round trip. *)
Definition requests_request (req : Request) : M Reply :=
  fun log =>
    (match server log req with
     | inl e => Raise e
     | inr r => Return r
     end, log ++ [req]).

Definition _request (self : t) (method : string)
    (resource data params url : value) : M value :=
  target <- lift (if truthy url then Return url
                  else str_add API_BASE resource) ;;
  response <- requests_request (build self method target params data) ;;
  if ok response then
    lift (match json response with
          | inr v => Return v
          | inl e => Raise e
          end)
  else if status response =? 401 then raise APIUnauthorizedError
  else if status response =? 403 then raise APIForbiddenError
  else raise APIUnknownError.

Fixpoint _request_paged_list_while (fuel : nat) (self : t)
    (method : string) (data params : value) (items next_link : value)
  : M value :=
  if truthy next_link then
    match fuel with
    | O => out_of_fuel
    | S fuel' =>
        response <- _request self method VNone data params next_link ;;
        items' <- lift (extend items (subscript response "items")) ;;
        next_link' <- lift (_get_next_link response) ;;
        _request_paged_list_while fuel' self method data params items'
          next_link'
    end
  else ret (VDict [("items", items)]).

Definition _request_paged_list (fuel : nat) (self : t) (method : string)
    (resource data params : value) : M value :=
  response <- _request self method resource data params VNone ;;
  items <- lift (subscript response "items") ;;
  next_link <- lift (_get_next_link response) ;;
  _request_paged_list_while fuel self method data params items next_link.

End WithServer.

End api_old.

(** ** The paged loop, once for both classes *)

(** [get_items] and [_request_paged_list] run the same loop; they differ in
    how a page is requested ([fetch]), how its items are read ([items_of])
    and how the result is returned ([wrap]).  [_get_next_link] is the same
    function in both classes. *)
Section PagedLoop.
Variable fetch : value -> M value.
Variable items_of : value -> outcome value.
Variable wrap : value -> value.

Fixpoint paged_while (fuel : nat) (items next_link : value) : M value :=
  if truthy next_link then
    match fuel with
    | O => out_of_fuel
    | S fuel' =>
        resp <- fetch next_link ;;
        items' <- lift (extend items (items_of resp)) ;;
        next_link' <- lift (Api._get_next_link resp) ;;
        paged_while fuel' items' next_link'
    end
  else ret (wrap items).

Definition paged (fuel : nat) (first_url : value) : M value :=
  resp <- fetch first_url ;;
  items <- lift (items_of resp) ;;
  next_link <- lift (Api._get_next_link resp) ;;
  paged_while fuel items next_link.

End PagedLoop.

(** ** Pages *)

(** The value under a key of a JSON object; nothing for any other value. *)
Definition field (k : string) (v : value) : option value :=
  match v with
  | VDict d => assoc k d
  | _ => None
  end.

(** The path [page._links.next.href], level by level. *)
Definition next_href (page : value) : option value :=
  match field "_links" page with
  | Some links =>
      match field "next" links with
      | Some next_link => field "href" next_link
      | None => None
      end
  | None => None
  end.

Definition object_or_falsy (v : value) : bool :=
  match v with
  | VDict _ => true
  | _ => negb (truthy v)
  end.

(** A page is a JSON object whose [_links] and [_links.next], where
    present, are objects (or a falsy value such as [null]). *)
Definition page_shaped (page : value) : bool :=
  match page with
  | VDict d =>
      match assoc "_links" d with
      | None => true
      | Some links =>
          object_or_falsy links &&
          match field "next" links with
          | None => true
          | Some next_link => object_or_falsy next_link
          end
      end
  | _ => false
  end.

(** The items a page of the listing carries: those of its [items] list,
    none when the page has no [items] field. *)
Definition page_items (page : value) : option (list value) :=
  match page with
  | VDict d =>
      match assoc "items" d with
      | None => Some []
      | Some (VList l) => Some l
      | Some _ => None
      end
  | _ => None
  end.

(** The next link of each page of a list, as the value at its path. *)
Definition hrefs (pages : list value) : list value :=
  map (fun p => match next_href p with Some v => v | None => VNone end) pages.

(** [follows fetch log url pages log' url']: starting with [url] after the
    requests [log], the requests for [pages] succeed one after the other,
    each page carrying a non-empty next link that is the url of the
    following request; [url'] is the link of the last of [pages] and [log']
    the requests made by then. *)
Inductive follows (fetch : value -> M value)
  : list Request -> value -> list value -> list Request -> value -> Prop :=
| follows_nil : forall log url, follows fetch log url [] log url
| follows_cons : forall log url p u log1 ps log' url',
    fetch url log = (Return p, log1) ->
    next_href p = Some (VStr u) ->
    u <> "" ->
    follows fetch log1 (VStr u) ps log' url' ->
    follows fetch log url (p :: ps) log' url'.

(** ** Error kinds *)

(** The classes of error the two engines can raise for an HTTP status. *)
Inductive error_class : Type :=
| ClsAPIResponseError
| ClsClientResponseError
| ClsAPIUnauthorizedError
| ClsAPIForbiddenError
| ClsAPIUnknownError
| ClsOther.

Definition class_of (e : exn) : error_class :=
  match e with
  | APIResponseError _ _ _ _ _ _ => ClsAPIResponseError
  | ClientResponseError _ _ _ _ _ => ClsClientResponseError
  | APIUnauthorizedError => ClsAPIUnauthorizedError
  | APIForbiddenError => ClsAPIForbiddenError
  | APIUnknownError => ClsAPIUnknownError
  | _ => ClsOther
  end.


(** The HTTP status an error carries, when it carries one. *)
Definition error_status (e : exn) : option Z :=
  match e with
  | APIResponseError _ _ s _ _ _ => Some s
  | ClientResponseError _ _ s _ _ => Some s
  | _ => None
  end.

(** ** A sample peer *)

Definition ok200 (v : value) : Reply := mkReply 200 "OK" [] (inr v) [].

Definition devices_page1 : value :=
  VDict [("items", VList [VDict [("id", VStr "d1")]]);
         ("_links", VDict [("next", VDict [("href",
            VStr "https://api.smartthings.com/v1/devices?page=2")])])].

Definition devices_page2 : value :=
  VDict [("items", VList [VDict [("id", VStr "d2")]])].

Definition apps_page1 : value :=
  VDict [("items", VList [VDict [("appId", VStr "a1")]]);
         ("_links", VDict [("next", VDict [("href",
            VStr "https://api.smartthings.com/v1/apps?page=2")])])].

(** A page without [items] that links to a following page. *)
Definition locations_page1 : value :=
  VDict [("_links", VDict [("next", VDict [("href",
            VStr "https://api.smartthings.com/v1/locations?page=2")])])].

(** A page whose next link object has no [href]. *)
Definition locations_page2 : value :=
  VDict [("items", VList [VDict [("locationId", VStr "l1")]]);
         ("_links", VDict [("next", VDict [("rel", VStr "next")])])].

Definition rate_limited : value := VDict [("error", VStr "rate_limited")].

Definition sample_table : list (string * Reply) :=
  [("https://api.smartthings.com/v1/devices", ok200 devices_page1);
   ("https://api.smartthings.com/v1/devices?page=2", ok200 devices_page2);
   ("https://api.smartthings.com/v1/apps", ok200 apps_page1);
   ("https://api.smartthings.com/v1/apps?page=2",
      mkReply 429 "Too Many Requests" [] (inr rate_limited) []);
   ("https://api.smartthings.com/v1/locations", ok200 locations_page1);
   ("https://api.smartthings.com/v1/locations?page=2",
      ok200 locations_page2);
   ("https://api.smartthings.com/v1/installedapps",
      mkReply 401 "Unauthorized" [] (inl ContentTypeError) []);
   ("https://api.smartthings.com/v1/installedapps/i1",
      mkReply 403 "Forbidden" [] (inl ContentTypeError) []);
   ("https://api.smartthings.com/v1/apps/a1",
      mkReply 500 "Internal Server Error" [] (inl JSONDecodeError) []);
   ("https://api.smartthings.com/v1/devices/d1/commands",
      mkReply 204 "No Content" [] (inl ContentTypeError) [])].

Fixpoint find_reply (u : string) (table : list (string * Reply))
  : option Reply :=
  match table with
  | [] => None
  | (u', r) :: table' => if String.eqb u u' then Some r else find_reply u table'
  end.

(** The sample peer answers by url and has nothing under any other url. *)
Definition sample_server : Server :=
  fun _ req =>
    match req_url req with
    | VStr u =>
        match find_reply u sample_table with
        | Some r => inr r
        | None => inr (mkReply 404 "Not Found" [] (inl ContentTypeError) [])
        end
    | _ => inl TypeError
    end.

Definition sample_api : Api.t := Api.__init__ "secret-token" API_BASE.
Definition sample_api_old : api_old.t := api_old.__init__ "secret-token".

(** ** Resource paths *)

Definition API_LOCATIONS : string := "locations".
Definition API_LOCATION : string := (API_LOCATIONS ++ "/{location_id}")%string.
Definition API_DEVICES : string := "devices".
Definition API_DEVICE : string := (API_DEVICES ++ "/{device_id}")%string.
Definition API_DEVICE_STATUS : string := "devices/{device_id}/status".
Definition API_DEVICE_COMMAND : string := "devices/{device_id}/commands".
Definition API_APPS : string := "apps".
Definition API_APP : string := "apps/{app_id}".
Definition API_APP_OAUTH : string := "apps/{app_id}/oauth".
Definition API_APP_SETTINGS : string := "apps/{app_id}/settings".
Definition API_INSTALLEDAPPS : string := "installedapps".
Definition API_INSTALLEDAPP : string := "installedapps/{installed_app_id}".
Definition API_SUBSCRIPTIONS : string :=
  (API_INSTALLEDAPP ++ "/subscriptions")%string.
Definition API_SUBSCRIPTION : string :=
  (API_SUBSCRIPTIONS ++ "/{subscription_id}")%string.

(** ** [str.format] with keyword arguments *)

(** A template read as [str.format] reads it: literal characters and
    replacement fields. *)
Inductive piece : Type :=
| Chr (c : ascii)
| Field (name : string).

(** The characters of a plain field name: letters, digits and the
    underscore. *)
Definition name_char (c : ascii) : bool :=
  let n := nat_of_ascii c in
  ((97 <=? n) && (n <=? 122) || (65 <=? n) && (n <=? 90)
   || (48 <=? n) && (n <=? 57) || (n =? 95))%nat.

Definition starts_with_digit (s : string) : bool :=
  match s with
  | EmptyString => false
  | String c _ =>
      let n := nat_of_ascii c in ((48 <=? n) && (n <=? 57))%nat
  end.

(** The pieces of a template.  [{{] and [}}] stand for a brace; [{name}] is
    a field.  The result is [None] for a template [str.format] refuses (a
    single [}], an unclosed [{]) and for one outside what is modelled here:
    fields that are empty or numbered (positional arguments), or that carry
    a conversion, a format specification, an attribute or an index. *)
Fixpoint parse_template (t : string) (field : option string)
  : option (list piece) :=
  match t with
  | EmptyString =>
      match field with
      | None => Some []
      | Some _ => None
      end
  | String c t' =>
      match field with
      | Some name =>
          if Ascii.eqb c "}" then
            if match name with EmptyString => true | _ => false end
               || starts_with_digit name
            then None
            else option_map (cons (Field name)) (parse_template t' None)
          else if name_char c then
            parse_template t' (Some (name ++ String c EmptyString)%string)
          else None
      | None =>
          if Ascii.eqb c "{" then
            match t' with
            | String "{" t'' =>
                option_map (cons (Chr "{")) (parse_template t'' None)
            | _ => parse_template t' (Some EmptyString)
            end
          else if Ascii.eqb c "}" then
            match t' with
            | String "}" t'' =>
                option_map (cons (Chr "}")) (parse_template t'' None)
            | _ => None
            end
          else option_map (cons (Chr c)) (parse_template t' None)
      end
  end.

Fixpoint kwarg (name : string) (kwargs : list (string * string))
  : option string :=
  match kwargs with
  | [] => None
  | (k, v) :: kwargs' => if String.eqb name k then Some v else kwarg name kwargs'
  end.

(** The text of the pieces, each field replaced by the string passed under
    its name; a field with no such argument raises [KeyError]. *)
Fixpoint fill (ps : list piece) (kwargs : list (string * string))
  : outcome string :=
  match ps with
  | [] => Return EmptyString
  | Chr c :: ps' =>
      match fill ps' kwargs with
      | Return s => Return (String c s)
      | other => other
      end
  | Field name :: ps' =>
      match kwarg name kwargs with
      | Some v =>
          match fill ps' kwargs with
          | Return s => Return (v ++ s)%string
          | other => other
          end
      | None => Raise (KeyError name)
      end
  end.

(** [template.format(name=value, ...)] for string arguments.  A template that
    [parse_template] does not read gets no result. *)
Definition str_format (template : string) (kwargs : list (string * string))
  : outcome string :=
  match parse_template template None with
  | Some ps => fill ps kwargs
  | None => OutOfFuel
  end.

(** ** The methods of class Api that call [get] and [get_items] *)

Module Api_methods.

Section WithServer.
Variable server : Server.

Definition get_locations (fuel : nat) (self : Api.t) : M value :=
  Api.get_items server fuel self API_LOCATIONS VNone.

Definition get_location (self : Api.t) (location_id : string) : M value :=
  resource <- lift (str_format API_LOCATION [("location_id", location_id)]) ;;
  Api.get server self resource VNone.

End WithServer.

End Api_methods.

(** ** The methods of class api_old that call [_request] and
    [_request_paged_list] *)

Module api_old_methods.

(** The body [post_command] sends: one command, with its [arguments] only
    when [args] is truthy. *)
Definition post_command_data (capability command args component : value)
  : value :=
  let cmd := [("component", component); ("capability", capability);
              ("command", command)] in
  VDict [("commands",
          VList [VDict (if truthy args then cmd ++ [("arguments", args)]
                        else cmd)])].

Section WithServer.
Variable server : Server.

(** [self._request(method, template.format(name=value, ...), data)]. *)
Definition formatted_request (self : api_old.t) (method template : string)
    (kwargs : list (string * string)) (data : value) : M value :=
  resource <- lift (str_format template kwargs) ;;
  api_old._request server self method (VStr resource) data VNone VNone.

Definition get_devices (fuel : nat) (self : api_old.t) (params : value)
  : M value :=
  api_old._request_paged_list server fuel self "get" (VStr API_DEVICES) VNone
    params.

Definition get_device (self : api_old.t) (device_id : string) : M value :=
  formatted_request self "get" API_DEVICE [("device_id", device_id)] VNone.

Definition get_device_status (self : api_old.t) (device_id : string)
  : M value :=
  formatted_request self "get" API_DEVICE_STATUS [("device_id", device_id)]
    VNone.

Definition post_command (self : api_old.t) (device_id : string)
    (capability command args component : value) : M value :=
  let data := post_command_data capability command args component in
  formatted_request self "post" API_DEVICE_COMMAND
    [("device_id", device_id)] data.

Definition get_apps (fuel : nat) (self : api_old.t) : M value :=
  api_old._request_paged_list server fuel self "get" (VStr API_APPS) VNone
    VNone.

Definition get_app (self : api_old.t) (app_id : string) : M value :=
  formatted_request self "get" API_APP [("app_id", app_id)] VNone.

Definition create_app (self : api_old.t) (data : value) : M value :=
  api_old._request server self "post" (VStr API_APPS) data VNone VNone.

Definition update_app (self : api_old.t) (app_id : string) (data : value)
  : M value :=
  formatted_request self "put" API_APP [("app_id", app_id)] data.

Definition delete_app (self : api_old.t) (app_id : string) : M value :=
  formatted_request self "delete" API_APP [("app_id", app_id)] VNone.

Definition get_app_settings (self : api_old.t) (app_id : string) : M value :=
  formatted_request self "get" API_APP_SETTINGS [("app_id", app_id)] VNone.

Definition update_app_settings (self : api_old.t) (app_id : string)
    (data : value) : M value :=
  formatted_request self "put" API_APP_SETTINGS [("app_id", app_id)] data.

Definition get_app_oauth (self : api_old.t) (app_id : string) : M value :=
  formatted_request self "get" API_APP_OAUTH [("app_id", app_id)] VNone.

Definition update_app_oauth (self : api_old.t) (app_id : string)
    (data : value) : M value :=
  formatted_request self "put" API_APP_OAUTH [("app_id", app_id)] data.

Definition get_installedapps (fuel : nat) (self : api_old.t) : M value :=
  api_old._request_paged_list server fuel self "get" (VStr API_INSTALLEDAPPS)
    VNone VNone.

Definition get_installedapp (self : api_old.t) (installed_app_id : string)
  : M value :=
  formatted_request self "get" API_INSTALLEDAPP
    [("installed_app_id", installed_app_id)] VNone.

Definition delete_installedapp (self : api_old.t)
    (installed_app_id : string) : M value :=
  formatted_request self "delete" API_INSTALLEDAPP
    [("installed_app_id", installed_app_id)] VNone.

Definition get_subscriptions (fuel : nat) (self : api_old.t)
    (installed_app_id : string) : M value :=
  resource <- lift (str_format API_SUBSCRIPTIONS
                      [("installed_app_id", installed_app_id)]) ;;
  api_old._request_paged_list server fuel self "get" (VStr resource) VNone
    VNone.

Definition create_subscription (self : api_old.t)
    (installed_app_id : string) (data : value) : M value :=
  formatted_request self "post" API_SUBSCRIPTIONS
    [("installed_app_id", installed_app_id)] data.

Definition delete_all_subscriptions (self : api_old.t)
    (installed_app_id : string) : M value :=
  formatted_request self "delete" API_SUBSCRIPTIONS
    [("installed_app_id", installed_app_id)] VNone.

Definition get_subscription (self : api_old.t)
    (installed_app_id subscription_id : string) : M value :=
  formatted_request self "get" API_SUBSCRIPTION
    [("installed_app_id", installed_app_id);
     ("subscription_id", subscription_id)] VNone.

Definition delete_subscription (self : api_old.t)
    (installed_app_id subscription_id : string) : M value :=
  formatted_request self "delete" API_SUBSCRIPTION
    [("installed_app_id", installed_app_id);
     ("subscription_id", subscription_id)] VNone.

End WithServer.

End api_old_methods.

(** ** More sample peers *)

(** A peer whose every page links to itself. *)
Definition looping_page : value :=
  VDict [("items", VList [VDict [("id", VStr "d1")]]);
         ("_links", VDict [("next", VDict [("href",
            VStr "https://api.smartthings.com/v1/devices")])])].

Definition looping_server : Server := fun _ _ => inr (ok200 looping_page).

Definition edge_table : list (string * Reply) :=
  [("https://api.smartthings.com/v1/empty-href",
      ok200 (VDict [("items", VList [VInt 1]);
                    ("_links", VDict [("next", VDict [("href", VStr "")])])]));
   ("https://api.smartthings.com/v1/null-items",
      ok200 (VDict [("items", VNone)]));
   ("https://api.smartthings.com/v1/null-items-linked",
      ok200 (VDict [("items", VNone);
                    ("_links", VDict [("next", VDict [("href",
                       VStr "https://api.smartthings.com/v1/more")])])]));
   ("https://api.smartthings.com/v1/more", ok200 (VDict [("items", VList [VInt 2])]));
   ("https://api.smartthings.com/v1/apps/a1",
      mkReply 204 "No Content" [] (inl JSONDecodeError) []);
   ("https://api.smartthings.com/v1/devices/d1",
      mkReply 422 "Unprocessable Entity" [] (inr rate_limited) []);
   ("https://api.smartthings.com/v1/devices",
      ok200 devices_page1);
   ("https://api.smartthings.com/v1/devices?page=2",
      ok200 devices_page2)].

Definition edge_server : Server :=
  fun _ req =>
    match req_url req with
    | VStr u =>
        match find_reply u edge_table with
        | Some r => inr r
        | None => inr (mkReply 404 "Not Found" [] (inl ContentTypeError) [])
        end
    | _ => inl TypeError
    end.

(** * Properties *)

(** ** Single requests *)

(** What [Api.request] does, by the peer's answer. *)
Lemma request_unfold (server : Server) (self : Api.t) (method : string)
    (url params data : value) (log : list Request) :
  let req := Api.build self method url params data in
  let ri := mkRequestInfo url params method (req_headers req) in
  Api.request server self method url params data log =
  (match server log req with
   | inl e => Raise e
   | inr r =>
       if status r =? 200 then
         match json r with inr v => Return v | inl e => Raise e end
       else if existsb (Z.eqb (status r)) [400; 422; 429; 500] then
         Raise (APIResponseError ri (history r) (status r) (reason r)
                  (headers r)
                  (match json r with inr v => v | inl _ => VNone end))
       else if 400 <=? status r then
         Raise (ClientResponseError ri (history r) (status r) (reason r)
                  (headers r))
       else Return VNone
   end, log ++ [req]).
Proof.
  intros req ri. unfold Api.request, bind, Api.session_request. fold req.
  destruct (server log req) as [e | r]; [reflexivity |].
  cbn [Api.reply Api.request_info].
  destruct (status r =? 200); [unfold lift; destruct (json r); reflexivity |].
  destruct (existsb (Z.eqb (status r)) [400; 422; 429; 500]); [reflexivity |].
  unfold Api.raise_for_status. cbn [Api.reply Api.request_info].
  destruct (400 <=? status r); reflexivity.
Qed.

(** What [api_old._request] does, by the peer's answer. *)
Lemma old_request_unfold (server : Server) (self : api_old.t)
    (method : string) (resource data params url target : value)
    (log : list Request) :
  (if truthy url then Return url else str_add API_BASE resource)
    = Return target ->
  let req := api_old.build self method target params data in
  api_old._request server self method resource data params url log =
  (match server log req with
   | inl e => Raise e
   | inr r =>
       if api_old.ok r then
         match json r with inr v => Return v | inl e => Raise e end
       else if status r =? 401 then Raise APIUnauthorizedError
       else if status r =? 403 then Raise APIForbiddenError
       else Raise APIUnknownError
   end, log ++ [req]).
Proof.
  intros Ht req. unfold api_old._request, bind, lift. rewrite Ht.
  unfold api_old.requests_request. fold req.
  destruct (server log req) as [e | r]; [reflexivity |].
  destruct (api_old.ok r); [destruct (json r); reflexivity |].
  destruct (status r =? 401); [reflexivity |].
  destruct (status r =? 403); reflexivity.
Qed.

(** A 200 response gives its decoded body, or the exception of the
    decoding when the body does not decode; a failure of the transport is
    raised as it is. *)
Lemma request_200 (server : Server) (self : Api.t) (method : string)
    (url params data : value) (log : list Request) (r : Reply) :
  server log (Api.build self method url params data) = inr r ->
  status r = 200 ->
  Api.request server self method url params data log
  = (match json r with inr v => Return v | inl e => Raise e end,
     log ++ [Api.build self method url params data]).
Proof.
  intros Hs H200. rewrite request_unfold. cbv zeta. rewrite Hs, H200.
  reflexivity.
Qed.

Lemma request_transport_failure (server : Server) (self : Api.t)
    (method : string) (url params data : value) (log : list Request)
    (e : exn) :
  server log (Api.build self method url params data) = inl e ->
  Api.request server self method url params data log
  = (Raise e, log ++ [Api.build self method url params data]).
Proof.
  intros Hs. rewrite request_unfold. cbv zeta. rewrite Hs. reflexivity.
Qed.

Lemma in_rejected (s : Z) :
  In s [400; 422; 429; 500] ->
  (s =? 200) = false /\ existsb (Z.eqb s) [400; 422; 429; 500] = true.
Proof.
  intros H. split.
  - simpl in H. destruct H as [H | [H | [H | [H | []]]]]; subst; reflexivity.
  - apply existsb_exists. exists s. split; [exact H | apply Z.eqb_refl].
Qed.

(** C3: a response with status 400, 422, 429 or 500 makes [Api.request]
    raise [APIResponseError] (the rejected-request error), with the status,
    reason and headers of the response; its [data] is the decoded body when
    the body decodes as JSON and [None] when decoding raises, and the
    decoding exception itself is never what the call raises. *)
Theorem request_rejected_with_diagnostic (server : Server) (self : Api.t)
    (method : string) (url params data : value) (log : list Request)
    (r : Reply) :
  server log (Api.build self method url params data) = inr r ->
  In (status r) [400; 422; 429; 500] ->
  Api.request server self method url params data log =
  (Raise (APIResponseError
            (mkRequestInfo url params method
               [("Authorization", ("Bearer " ++ Api._token self)%string)])
            (history r) (status r) (reason r) (headers r)
            (match json r with inr v => v | inl _ => VNone end)),
   log ++ [Api.build self method url params data]).
Proof.
  intros Hs Hin. rewrite request_unfold. cbv zeta. rewrite Hs.
  destruct (in_rejected _ Hin) as [H200 Hrej]. rewrite H200, Hrej.
  reflexivity.
Qed.

Lemma request_rejected_with_diagnostic_witness :
  fst (Api.request sample_server sample_api "get"
         (VStr "https://api.smartthings.com/v1/apps?page=2") VNone VNone [])
  = Raise (APIResponseError
             (mkRequestInfo
                (VStr "https://api.smartthings.com/v1/apps?page=2") VNone
                "get" [("Authorization", "Bearer secret-token")])
             [] 429 "Too Many Requests" [] rate_limited)
  /\
  fst (Api.request sample_server sample_api "get"
         (VStr "https://api.smartthings.com/v1/apps/a1") VNone VNone [])
  = Raise (APIResponseError
             (mkRequestInfo
                (VStr "https://api.smartthings.com/v1/apps/a1") VNone
                "get" [("Authorization", "Bearer secret-token")])
             [] 500 "Internal Server Error" [] VNone).
Proof.
  split.
  - rewrite (request_rejected_with_diagnostic sample_server sample_api "get"
               (VStr "https://api.smartthings.com/v1/apps?page=2") VNone VNone
               [] (mkReply 429 "Too Many Requests" [] (inr rate_limited) [])).
    + reflexivity.
    + reflexivity.
    + simpl. lia.
  - rewrite (request_rejected_with_diagnostic sample_server sample_api "get"
               (VStr "https://api.smartthings.com/v1/apps/a1") VNone VNone
               [] (mkReply 500 "Internal Server Error" []
                     (inl JSONDecodeError) [])).
    + reflexivity.
    + reflexivity.
    + simpl. lia.
Defined.

(** C4, as amended: a response with status 401 or 403 makes the call fail
    in both engines, with an error that tells the status.  [api_old._request]
    raises [APIUnauthorizedError] for 401 and [APIForbiddenError] for 403;
    [Api.request] raises aiohttp's [ClientResponseError] carrying the status
    and reason of the response, the error it raises for any other status of
    400 or more outside 400, 422, 429 and 500. *)
Theorem status_401_403_fails (server : Server) (self : Api.t)
    (old : api_old.t) (method : string) (url params data : value)
    (log : list Request) (r : Reply) :
  status r = 401 \/ status r = 403 ->
  (server log (Api.build self method url params data) = inr r ->
   Api.request server self method url params data log =
   (Raise (ClientResponseError
             (mkRequestInfo url params method
                [("Authorization", ("Bearer " ++ Api._token self)%string)])
             (history r) (status r) (reason r) (headers r)),
    log ++ [Api.build self method url params data]))
  /\
  (forall resource target,
     (if truthy url then Return url else str_add API_BASE resource)
       = Return target ->
     server log (api_old.build old method target params data) = inr r ->
     api_old._request server old method resource data params url log =
     (Raise (if status r =? 401 then APIUnauthorizedError
             else APIForbiddenError),
      log ++ [api_old.build old method target params data])).
Proof.
  intros Hst. split.
  - intros Hs. rewrite request_unfold. cbv zeta. rewrite Hs.
    destruct Hst as [E | E]; rewrite E; reflexivity.
  - intros resource target Ht Hs.
    rewrite (old_request_unfold _ _ _ _ _ _ _ _ _ Ht). cbv zeta. rewrite Hs.
    unfold api_old.ok. destruct Hst as [E | E]; rewrite E; reflexivity.
Qed.

Lemma status_401_403_fails_witness :
  fst (Api.request sample_server sample_api "get"
         (VStr "https://api.smartthings.com/v1/installedapps/i1") VNone VNone
         [])
  = Raise (ClientResponseError
             (mkRequestInfo
                (VStr "https://api.smartthings.com/v1/installedapps/i1")
                VNone "get" [("Authorization", "Bearer secret-token")])
             [] 403 "Forbidden" [])
  /\
  fst (api_old._request sample_server sample_api_old "get"
         (VStr "installedapps") VNone VNone VNone [])
  = Raise APIUnauthorizedError.
Proof.
  split.
  - rewrite (proj1 (status_401_403_fails sample_server sample_api
               sample_api_old "get"
               (VStr "https://api.smartthings.com/v1/installedapps/i1")
               VNone VNone []
               (mkReply 403 "Forbidden" [] (inl ContentTypeError) [])
               (or_intror eq_refl)) eq_refl).
    reflexivity.
  - rewrite (proj2 (status_401_403_fails sample_server sample_api
               sample_api_old "get" VNone VNone VNone []
               (mkReply 401 "Unauthorized" [] (inl ContentTypeError) [])
               (or_introl eq_refl))
               (VStr "installedapps")
               (VStr "https://api.smartthings.com/v1/installedapps")
               eq_refl eq_refl).
    reflexivity.
Defined.

(** C4, as stated, fails on [Api.request]: for a 401 response it raises
    [ClientResponseError], the class it also raises for a 404, and not
    [APIUnauthorizedError]. *)
Lemma api_request_401_not_unauthorized :
  fst (Api.request sample_server sample_api "get"
         (VStr "https://api.smartthings.com/v1/installedapps") VNone VNone [])
  = Raise (ClientResponseError
             (mkRequestInfo
                (VStr "https://api.smartthings.com/v1/installedapps") VNone
                "get" [("Authorization", "Bearer secret-token")])
             [] 401 "Unauthorized" [])
  /\ class_of (ClientResponseError
             (mkRequestInfo
                (VStr "https://api.smartthings.com/v1/installedapps") VNone
                "get" [("Authorization", "Bearer secret-token")])
             [] 401 "Unauthorized" []) <> ClsAPIUnauthorizedError
  /\ (exists e404,
        fst (Api.request sample_server sample_api "get"
               (VStr "https://api.smartthings.com/v1/nowhere") VNone VNone [])
        = Raise e404
        /\ error_status e404 = Some 404
        /\ class_of e404 = ClsClientResponseError).
Proof.
  split; [reflexivity |]. split; [discriminate |].
  eexists. split; [reflexivity |]. split; reflexivity.
Qed.

(** C10: a response whose status is in the 2xx range and is not 200 makes
    [Api.request] return [None]: nothing is raised and the body is not
    decoded. *)
Theorem request_2xx_returns_none (server : Server) (self : Api.t)
    (method : string) (url params data : value) (log : list Request)
    (r : Reply) :
  server log (Api.build self method url params data) = inr r ->
  200 < status r < 300 ->
  Api.request server self method url params data log =
  (Return VNone, log ++ [Api.build self method url params data]).
Proof.
  intros Hs Hst. rewrite request_unfold. cbv zeta. rewrite Hs.
  replace (status r =? 200) with false by (symmetry; apply Z.eqb_neq; lia).
  replace (existsb (Z.eqb (status r)) [400; 422; 429; 500]) with false.
  - replace (400 <=? status r) with false by (symmetry; apply Z.leb_gt; lia).
    reflexivity.
  - symmetry. simpl.
    repeat match goal with
           | |- context [status r =? ?n] =>
               replace (status r =? n) with false
                 by (symmetry; apply Z.eqb_neq; lia)
           end.
    reflexivity.
Qed.

Lemma request_2xx_returns_none_witness :
  fst (Api.request sample_server sample_api "post"
         (VStr "https://api.smartthings.com/v1/devices/d1/commands") VNone
         (VDict [("commands", VList [])]) [])
  = Return VNone.
Proof.
  rewrite (request_2xx_returns_none sample_server sample_api "post"
             (VStr "https://api.smartthings.com/v1/devices/d1/commands")
             VNone (VDict [("commands", VList [])]) []
             (mkReply 204 "No Content" [] (inl ContentTypeError) [])).
  - reflexivity.
  - reflexivity.
  - simpl. lia.
Defined.

(** Every call of [Api.request] sends exactly one request, built from the
    object's fields as they are at the call. *)
Lemma request_log (server : Server) (self : Api.t) (method : string)
    (url params data : value) (log : list Request) :
  snd (Api.request server self method url params data log)
  = log ++ [Api.build self method url params data].
Proof. rewrite request_unfold. reflexivity. Qed.

(** C8: when the token of an [Api] object is replaced between two calls of
    [request], whatever the first call's outcome, the second request carries
    [Authorization: Bearer <new token>] and the first carried the token held
    at the time; [api_old._request] likewise sends the headers its object
    holds when the call is made.  Class [api_old] has no way to replace the
    token: its header is fixed when the object is made, and every request
    through an object made by [api_old.__init__ token], by resource or by
    url, carries [Authorization: Bearer <token>] for that token. *)
Theorem token_rotation (server : Server) (self : Api.t) (new_token : string)
    (method1 method2 : string) (url1 params1 data1 url2 params2 data2 : value)
    (log : list Request) :
  let log1 := snd (Api.request server self method1 url1 params1 data1 log) in
  let self' := Api.token_setter self new_token in
  snd (Api.request server self' method2 url2 params2 data2 log1)
  = log ++ [mkRequest method1 url1 params1 data1
              [("Authorization", ("Bearer " ++ Api.token self)%string)];
            mkRequest method2 url2 params2 data2
              [("Authorization", ("Bearer " ++ new_token)%string)]]
  /\ Api.token self' = new_token
  /\ (forall (old : api_old.t) (resource : value),
        truthy url1 = true ->
        snd (api_old._request server old method1 resource data1 params1 url1
               log)
        = log ++ [mkRequest method1 url1 params1 data1
                    (api_old._headers old)])
  /\ (forall (token : string) (resource : value),
        truthy url1 = true ->
        snd (api_old._request server (api_old.__init__ token) method1
               resource data1 params1 url1 log)
        = log ++ [mkRequest method1 url1 params1 data1
                    [("Authorization", ("Bearer " ++ token)%string)]])
  /\ (forall (token res : string) (log' : list Request),
        snd (api_old._request server (api_old.__init__ token) method2
               (VStr res) data2 params2 VNone
               (snd (api_old._request server (api_old.__init__ token)
                       method1 (VStr res) data1 params1 VNone log')))
        = log' ++ [mkRequest method1 (VStr (API_BASE ++ res)%string) params1
                     data1 [("Authorization", ("Bearer " ++ token)%string)];
                   mkRequest method2 (VStr (API_BASE ++ res)%string) params2
                     data2 [("Authorization", ("Bearer " ++ token)%string)]]).
Proof.
  cbv zeta. rewrite !request_log. split; [| split; [| split; [| split]]].
  - rewrite <- app_assoc. reflexivity.
  - reflexivity.
  - intros old resource Ht.
    rewrite (old_request_unfold server old method1 resource data1 params1
               url1 url1 log) by (rewrite Ht; reflexivity).
    reflexivity.
  - intros token resource Ht.
    rewrite (old_request_unfold server (api_old.__init__ token) method1
               resource data1 params1 url1 url1 log)
      by (rewrite Ht; reflexivity).
    reflexivity.
  - intros token res log'.
    rewrite (old_request_unfold server (api_old.__init__ token) method1
               (VStr res) data1 params1 VNone
               (VStr (API_BASE ++ res)%string) log') by reflexivity.
    cbv zeta. cbn [snd].
    rewrite (old_request_unfold server (api_old.__init__ token) method2
               (VStr res) data2 params2 VNone
               (VStr (API_BASE ++ res)%string)) by reflexivity.
    cbv zeta. cbn [snd]. rewrite <- app_assoc. reflexivity.
Qed.




(** ** The next link *)

Lemma assoc_some_truthy (k : string) (d : list (string * value)) (v : value) :
  assoc k d = Some v -> truthy (VDict d) = true.
Proof. destruct d; [discriminate | reflexivity]. Qed.

(** On a page-shaped value [_get_next_link] returns what is at the path,
    and [None] when a level of the path is missing. *)
Lemma get_next_link_path (page : value) :
  page_shaped page = true ->
  Api._get_next_link page
  = Return (match next_href page with Some v => v | None => VNone end).
Proof.
  destruct page as [| | | | | | d]; try discriminate.
  unfold page_shaped, Api._get_next_link, next_href. cbn [dict_get field].
  destruct (assoc "_links" d) as [links |]; [| reflexivity].
  intros H. apply andb_prop in H. destruct H as [Hl Hn].
  destruct (truthy links) eqn:Tl; cbn [negb].
  - destruct links as [| | | | | | ld];
      try (unfold object_or_falsy in Hl; rewrite Tl in Hl; discriminate).
    cbn [field dict_get] in *.
    destruct (assoc "next" ld) as [nl |]; [| reflexivity].
    destruct (truthy nl) eqn:Tn; cbn [negb].
    + destruct nl as [| | | | | | nd];
        try (unfold object_or_falsy in Hn; rewrite Tn in Hn; discriminate).
      cbn [field dict_get]. destruct (assoc "href" nd); reflexivity.
    + destruct nl as [| | | | | | nd]; try reflexivity.
      destruct nd; [reflexivity | discriminate].
  - destruct links as [| | | | | | ld]; try reflexivity.
    destruct ld; [reflexivity | discriminate].
Qed.

(** A value at the path is returned as it is: the levels above it are
    then non-empty objects. *)
Lemma get_next_link_href (page v : value) :
  next_href page = Some v -> Api._get_next_link page = Return v.
Proof.
  intros H. rewrite get_next_link_path.
  - rewrite H. reflexivity.
  - unfold next_href in H. destruct page as [| | | | | | d]; try discriminate.
    cbn [field] in H. unfold page_shaped.
    destruct (assoc "_links" d) as [links |]; [| discriminate].
    destruct links as [| | | | | | ld]; try discriminate.
    cbn [field] in *. destruct (assoc "next" ld) as [nl |]; [| discriminate].
    destruct nl; try discriminate. reflexivity.
Qed.

(** A truthy [_links] (or [next]) that is not an object is outside the
    page shape: there the lookup of [get] on it raises. *)
Lemma get_next_link_not_object :
  Api._get_next_link (VDict [("_links", VStr "next")])
  = Raise (AttributeError "get").
Proof. reflexivity. Qed.

Lemma old_get_next_link_same (data : value) :
  api_old._get_next_link data = Api._get_next_link data.
Proof. reflexivity. Qed.

(** ** The paged loop *)

Section PagedLoopFacts.
Variable fetch : value -> M value.
Variable items_of : value -> outcome value.
Variable wrap : value -> value.

Local Notation "'loop'" := (paged_while fetch items_of wrap).
Local Notation "'carry'" :=
  (Forall2 (fun p l => items_of p = Return (VList l))).


Lemma paged_while_stop (fuel : nat) (items next_link : value)
    (log : list Request) :
  truthy next_link = false ->
  loop fuel items next_link log = (Return (wrap items), log).
Proof. intros H. destruct fuel; simpl; rewrite H; reflexivity. Qed.

Lemma paged_while_step (fuel : nat) (acc l : list value) (url p nl : value)
    (log log1 : list Request) :
  truthy url = true ->
  fetch url log = (Return p, log1) ->
  items_of p = Return (VList l) ->
  Api._get_next_link p = Return nl ->
  loop (S fuel) (VList acc) url log = loop fuel (VList (acc ++ l)) nl log1.
Proof.
  intros Ht Hf Hi Hn. cbn [paged_while]. rewrite Ht.
  unfold bind, lift. rewrite Hf, Hi, Hn. reflexivity.
Qed.

Lemma paged_while_raise (fuel : nat) (items url : value) (e : exn)
    (log log1 : list Request) :
  truthy url = true ->
  fetch url log = (Raise e, log1) ->
  loop (S fuel) items url log = (Raise e, log1).
Proof.
  intros Ht Hf. cbn [paged_while]. rewrite Ht.
  unfold bind. rewrite Hf. reflexivity.
Qed.

Lemma follows_truthy (log log' : list Request) (url url' : value)
    (pages : list value) :
  follows fetch log url pages log' url' ->
  truthy url = true -> truthy url' = true.
Proof.
  induction 1 as [| log url p u log1 ps log' url' Hf Hh Hu Hrest IH];
    intros Ht; [exact Ht |].
  apply IH. destruct u; [congruence | reflexivity].
Qed.

(** The loop runs through a chain of linked pages, adding their items in
    order; one unit of fuel per page. *)
Lemma paged_while_follows (log log' : list Request) (url url' : value)
    (pages : list value) :
  follows fetch log url pages log' url' ->
  forall itemss, carry pages itemss ->
  truthy url = true ->
  forall fuel acc,
    loop (List.length pages + fuel) (VList acc) url log
    = loop fuel (VList (acc ++ List.concat itemss)) url' log'.
Proof.
  induction 1 as [| log url p u log1 ps log' url' Hf Hh Hu Hrest IH];
    intros itemss HF Ht fuel acc.
  - inversion HF; subst. simpl. rewrite app_nil_r. reflexivity.
  - inversion HF as [| p0 l ps0 itemss' Hi HF']; subst.
    cbn [List.length Nat.add].
    rewrite (paged_while_step _ _ _ _ _ _ _ _ Ht Hf Hi (get_next_link_href _ _ Hh)).
    rewrite (IH itemss' HF').
    + cbn [List.concat]. rewrite app_assoc. reflexivity.
    + destruct u; [congruence | reflexivity].
Qed.

(** The whole listing: a chain of linked pages, then a page without a next
    link. *)
Lemma paged_concat (log log1 log2 : list Request) (url0 url1 last : value)
    (pages : list value) (itemss : list (list value))
    (last_items : list value) (fuel : nat) :
  follows fetch log url0 pages log1 url1 ->
  fetch url1 log1 = (Return last, log2) ->
  page_shaped last = true ->
  next_href last = None ->
  carry pages itemss ->
  items_of last = Return (VList last_items) ->
  (List.length pages <= fuel)%nat ->
  paged fetch items_of wrap fuel url0 log
  = (Return (wrap (VList (List.concat (itemss ++ [last_items])))), log2).
Proof.
  intros Hfol Hlast Hshape Hnone HF Hli Hfuel.
  assert (Hnl : Api._get_next_link last = Return VNone)
    by (rewrite (get_next_link_path _ Hshape), Hnone; reflexivity).
  rewrite concat_app. cbn [List.concat]. rewrite app_nil_r.
  unfold paged.
  inversion Hfol as [| logx urlx p u logA ps logy urly Hf Hh Hu Hrest]; subst.
  - inversion HF; subst. unfold bind, lift. rewrite Hlast, Hli, Hnl.
    apply paged_while_stop. reflexivity.
  - inversion HF as [| p0 l ps0 itemss' Hi HF']; subst.
    unfold bind at 1. rewrite Hf. unfold bind, lift.
    rewrite Hi, (get_next_link_href _ _ Hh).
    assert (Tu : truthy (VStr u) = true)
      by (destruct u; [congruence | reflexivity]).
    cbn [List.length] in Hfuel.
    replace fuel with (List.length ps + S (fuel - S (List.length ps)))%nat by lia.
    rewrite (paged_while_follows _ _ _ _ _ Hrest _ HF' Tu).
    rewrite (paged_while_step _ _ _ _ _ _ _ _
               (follows_truthy _ _ _ _ _ Hrest Tu) Hlast Hli Hnl).
    cbn [List.concat]. rewrite <- app_assoc. apply paged_while_stop. reflexivity.
Qed.

(** A failing request ends the listing with its error, whatever was
    gathered before. *)
Lemma paged_raise (log log1 log2 : list Request) (url0 url1 : value)
    (pages : list value) (itemss : list (list value)) (e : exn)
    (fuel : nat) :
  follows fetch log url0 pages log1 url1 ->
  carry pages itemss ->
  fetch url1 log1 = (Raise e, log2) ->
  (List.length pages <= fuel)%nat ->
  paged fetch items_of wrap fuel url0 log = (Raise e, log2).
Proof.
  intros Hfol HF Hfail Hfuel. unfold paged.
  inversion Hfol as [| logx urlx p u logA ps logy urly Hf Hh Hu Hrest]; subst.
  - unfold bind. rewrite Hfail. reflexivity.
  - inversion HF as [| p0 l ps0 itemss' Hi HF']; subst.
    unfold bind at 1. rewrite Hf. unfold bind, lift.
    rewrite Hi, (get_next_link_href _ _ Hh).
    assert (Tu : truthy (VStr u) = true)
      by (destruct u; [congruence | reflexivity]).
    cbn [List.length] in Hfuel.
    replace fuel with (List.length ps + S (fuel - S (List.length ps)))%nat by lia.
    rewrite (paged_while_follows _ _ _ _ _ Hrest _ HF' Tu).
    apply paged_while_raise; [exact (follows_truthy _ _ _ _ _ Hrest Tu) | exact Hfail].
Qed.

(** The requests of a chain, when each successful fetch sends the one
    request [mk url]. *)
Lemma follows_log (mk : value -> Request) (log log' : list Request)
    (url url' : value) (pages : list value) :
  (forall u l p l1, fetch u l = (Return p, l1) -> l1 = l ++ [mk u]) ->
  follows fetch log url pages log' url' ->
  log' ++ [mk url'] = log ++ map mk (url :: hrefs pages).
Proof.
  intros Hmk.
  induction 1 as [| log url p u log1 ps log' url' Hf Hh Hu Hrest IH].
  - reflexivity.
  - rewrite IH. rewrite (Hmk _ _ _ _ Hf). rewrite <- app_assoc.
    unfold hrefs. cbn [map]. rewrite Hh. reflexivity.
Qed.

End PagedLoopFacts.

(** ** The two listings as instances of the loop *)

Lemma get_items_while_paged (server : Server) (self : Api.t)
    (params : value) (fuel : nat) :
  forall items next_link log,
    Api.get_items_while server fuel self params items next_link log
    = paged_while (fun url => Api.request server self "get" url params VNone)
        (fun resp => dict_get resp "items" (VList [])) (fun items => items)
        fuel items next_link log.
Proof.
  induction fuel as [| fuel IH]; intros items next_link log;
    cbn [Api.get_items_while paged_while];
    destruct (truthy next_link); try reflexivity.
  unfold bind.
  destruct (Api.request server self "get" next_link params VNone log)
    as [[resp | e |] log1]; try reflexivity.
  unfold lift.
  destruct (extend items (dict_get resp "items" (VList [])));
    try reflexivity.
  destruct (Api._get_next_link resp); try reflexivity.
  apply IH.
Qed.

Lemma get_items_paged (server : Server) (self : Api.t) (resource : string)
    (params : value) (fuel : nat) (log : list Request) :
  Api.get_items server fuel self resource params log
  = paged (fun url => Api.request server self "get" url params VNone)
      (fun resp => dict_get resp "items" (VList [])) (fun items => items)
      fuel (VStr (Api._api_base self ++ resource)%string) log.
Proof.
  unfold Api.get_items, paged, bind.
  destruct (Api.request server self "get"
              (VStr (Api._api_base self ++ resource)%string) params VNone log)
    as [[resp | e |] log1]; try reflexivity.
  unfold lift.
  destruct (dict_get resp "items" (VList [])); try reflexivity.
  destruct (Api._get_next_link resp); try reflexivity.
  apply get_items_while_paged.
Qed.

Lemma old_while_paged (server : Server) (self : api_old.t) (method : string)
    (data params : value) (fuel : nat) :
  forall items next_link log,
    api_old._request_paged_list_while server fuel self method data params
      items next_link log
    = paged_while
        (fun url => api_old._request server self method VNone data params url)
        (fun resp => subscript resp "items")
        (fun items => VDict [("items", items)])
        fuel items next_link log.
Proof.
  induction fuel as [| fuel IH]; intros items next_link log;
    cbn [api_old._request_paged_list_while paged_while];
    destruct (truthy next_link); try reflexivity.
  unfold bind.
  destruct (api_old._request server self method VNone data params next_link
              log) as [[resp | e |] log1]; try reflexivity.
  unfold lift.
  destruct (extend items (subscript resp "items")); try reflexivity.
  change (api_old._get_next_link resp) with (Api._get_next_link resp).
  destruct (Api._get_next_link resp); try reflexivity.
  apply IH.
Qed.

(** The first request of [_request_paged_list] goes to [API_BASE +
    resource], as a request for that url would. *)
Lemma old_first_request (server : Server) (self : api_old.t)
    (method : string) (res : string) (data params : value)
    (log : list Request) :
  api_old._request server self method (VStr res) data params VNone log
  = api_old._request server self method VNone data params
      (VStr (API_BASE ++ res)%string) log.
Proof.
  rewrite (old_request_unfold server self method (VStr res) data params VNone
             (VStr (API_BASE ++ res)%string) log) by reflexivity.
  rewrite (old_request_unfold server self method VNone data params
             (VStr (API_BASE ++ res)%string)
             (VStr (API_BASE ++ res)%string) log) by reflexivity.
  reflexivity.
Qed.

Lemma old_paged (server : Server) (self : api_old.t) (method : string)
    (res : string) (data params : value) (fuel : nat) (log : list Request) :
  api_old._request_paged_list server fuel self method (VStr res) data params
    log
  = paged
      (fun url => api_old._request server self method VNone data params url)
      (fun resp => subscript resp "items")
      (fun items => VDict [("items", items)])
      fuel (VStr (API_BASE ++ res)%string) log.
Proof.
  unfold api_old._request_paged_list, paged, bind.
  rewrite old_first_request.
  destruct (api_old._request server self method VNone data params
              (VStr (API_BASE ++ res)%string) log)
    as [[resp | e |] log1]; try reflexivity.
  unfold lift.
  destruct (subscript resp "items"); try reflexivity.
  change (api_old._get_next_link resp) with (Api._get_next_link resp).
  destruct (Api._get_next_link resp); try reflexivity.
  apply old_while_paged.
Qed.

Lemma page_items_get (page : value) (l : list value) :
  page_items page = Some l ->
  dict_get page "items" (VList []) = Return (VList l).
Proof.
  destruct page as [| | | | | | d]; try discriminate.
  unfold page_items. cbn [dict_get].
  destruct (assoc "items" d) as [v |].
  - destruct v; try discriminate. intros H. inversion H. reflexivity.
  - intros H. inversion H. reflexivity.
Qed.

Lemma carry_page_items (pages : list value) (itemss : list (list value)) :
  Forall2 (fun p l => page_items p = Some l) pages itemss ->
  Forall2 (fun p l => dict_get p "items" (VList []) = Return (VList l))
    pages itemss.
Proof.
  induction 1; constructor; [apply page_items_get; assumption | assumption].
Qed.

(** ** Paged listings *)

(** C1: when the requests for pages P1..Pn succeed one after the other,
    each page before the last carrying a non-empty next link and the last
    carrying none, [Api.get_items] returns the items of P1, then those of
    P2, and so on to Pn, each once and in page order; fuel for one loop
    iteration per followed link is enough. *)
Theorem get_items_concatenates_pages (server : Server) (self : Api.t)
    (resource : string) (params : value) (pages : list value) (last : value)
    (itemss : list (list value)) (last_items : list value)
    (log log1 log2 : list Request) (url1 : value) (fuel : nat) :
  follows (fun url => Api.request server self "get" url params VNone)
    log (VStr (Api._api_base self ++ resource)%string) pages log1 url1 ->
  Api.request server self "get" url1 params VNone log1 = (Return last, log2) ->
  page_shaped last = true ->
  next_href last = None ->
  Forall2 (fun p l => page_items p = Some l) pages itemss ->
  page_items last = Some last_items ->
  (List.length pages <= fuel)%nat ->
  Api.get_items server fuel self resource params log
  = (Return (VList (List.concat (itemss ++ [last_items]))), log2).
Proof.
  intros Hfol Hlast Hshape Hnone HF Hli Hfuel. rewrite get_items_paged.
  exact (paged_concat _ _ (fun items => items) _ _ _ _ _ _ _ _ _ _
           Hfol Hlast Hshape Hnone (carry_page_items _ _ HF)
           (page_items_get _ _ Hli) Hfuel).
Qed.

Lemma get_items_concatenates_pages_witness :
  Api.get_items sample_server 1 sample_api "devices" VNone []
  = (Return (VList [VDict [("id", VStr "d1")]; VDict [("id", VStr "d2")]]),
     [Api.build sample_api "get"
        (VStr "https://api.smartthings.com/v1/devices") VNone VNone;
      Api.build sample_api "get"
        (VStr "https://api.smartthings.com/v1/devices?page=2") VNone VNone]).
Proof.
  apply (get_items_concatenates_pages sample_server sample_api "devices"
           VNone [devices_page1] devices_page2
           [[VDict [("id", VStr "d1")]]] [VDict [("id", VStr "d2")]]
           []
           [Api.build sample_api "get"
              (VStr "https://api.smartthings.com/v1/devices") VNone VNone]
           [Api.build sample_api "get"
              (VStr "https://api.smartthings.com/v1/devices") VNone VNone;
            Api.build sample_api "get"
              (VStr "https://api.smartthings.com/v1/devices?page=2") VNone
              VNone]
           (VStr "https://api.smartthings.com/v1/devices?page=2") 1).
  - eapply follows_cons;
      [reflexivity | reflexivity | discriminate | apply follows_nil].
  - reflexivity.
  - reflexivity.
  - reflexivity.
  - repeat constructor.
  - reflexivity.
  - simpl. lia.
Defined.

(** C2: when the requests for pages P1..Pk-1 succeed and the request for
    page k raises an error, the listing raises that same error and returns
    no items, in [Api.get_items] and in [api_old._request_paged_list]
    alike. *)
Theorem page_failure_propagates (server : Server) (pages : list value)
    (itemss : list (list value)) (log log1 log2 : list Request)
    (url1 : value) (e : exn) (fuel : nat) :
  (List.length pages <= fuel)%nat ->
  (forall (self : Api.t) (resource : string) (params : value),
     follows (fun url => Api.request server self "get" url params VNone)
       log (VStr (Api._api_base self ++ resource)%string) pages log1 url1 ->
     Forall2 (fun p l => page_items p = Some l) pages itemss ->
     Api.request server self "get" url1 params VNone log1 = (Raise e, log2) ->
     Api.get_items server fuel self resource params log = (Raise e, log2))
  /\
  (forall (old : api_old.t) (method res : string) (data params : value),
     follows
       (fun url => api_old._request server old method VNone data params url)
       log (VStr (API_BASE ++ res)%string) pages log1 url1 ->
     Forall2 (fun p l => subscript p "items" = Return (VList l))
       pages itemss ->
     api_old._request server old method VNone data params url1 log1
       = (Raise e, log2) ->
     api_old._request_paged_list server fuel old method (VStr res) data
       params log = (Raise e, log2)).
Proof.
  intros Hfuel. split.
  - intros self resource params Hfol HF Hfail. rewrite get_items_paged.
    exact (paged_raise _ _ (fun items => items) _ _ _ _ _ _ _ _ _
             Hfol (carry_page_items _ _ HF) Hfail Hfuel).
  - intros old method res data params Hfol HF Hfail. rewrite old_paged.
    exact (paged_raise _ _ (fun items => VDict [("items", items)])
             _ _ _ _ _ _ _ _ _ Hfol HF Hfail Hfuel).
Qed.

Lemma page_failure_propagates_witness :
  Api.get_items sample_server 1 sample_api "apps" VNone []
  = (Raise (APIResponseError
              (mkRequestInfo
                 (VStr "https://api.smartthings.com/v1/apps?page=2") VNone
                 "get" [("Authorization", "Bearer secret-token")])
              [] 429 "Too Many Requests" [] rate_limited),
     [Api.build sample_api "get"
        (VStr "https://api.smartthings.com/v1/apps") VNone VNone;
      Api.build sample_api "get"
        (VStr "https://api.smartthings.com/v1/apps?page=2") VNone VNone]).
Proof.
  apply (proj1 (page_failure_propagates sample_server [apps_page1]
                  [[VDict [("appId", VStr "a1")]]] []
                  [Api.build sample_api "get"
                     (VStr "https://api.smartthings.com/v1/apps") VNone VNone]
                  [Api.build sample_api "get"
                     (VStr "https://api.smartthings.com/v1/apps") VNone VNone;
                   Api.build sample_api "get"
                     (VStr "https://api.smartthings.com/v1/apps?page=2") VNone
                     VNone]
                  (VStr "https://api.smartthings.com/v1/apps?page=2")
                  (APIResponseError
                     (mkRequestInfo
                        (VStr "https://api.smartthings.com/v1/apps?page=2")
                        VNone "get"
                        [("Authorization", "Bearer secret-token")])
                     [] 429 "Too Many Requests" [] rate_limited)
                  1 (le_n 1))).
  - eapply follows_cons;
      [reflexivity | reflexivity | discriminate | apply follows_nil].
  - repeat constructor.
  - reflexivity.
Defined.

(** The same failure through the synchronous engine: the first page of
    [apps] is fetched, the second is answered 429, and the listing raises
    what [_request] raised. *)
Lemma old_page_failure_propagates_example :
  fst (api_old._request_paged_list sample_server 1 sample_api_old "get"
         (VStr "apps") VNone VNone [])
  = Raise APIUnknownError.
Proof. reflexivity. Qed.

Lemma request_return_log (server : Server) (self : Api.t) (method : string)
    (params data : value) :
  forall u l p l1,
    Api.request server self method u params data l = (Return p, l1) ->
    l1 = l ++ [Api.build self method u params data].
Proof.
  intros u l p l1 H. pose proof (request_log server self method u params data l)
    as Hl. rewrite H in Hl. exact Hl.
Qed.

Lemma old_request_return_log (server : Server) (old : api_old.t)
    (method : string) (data params : value) :
  forall u l p l1,
    api_old._request server old method VNone data params u l = (Return p, l1) ->
    l1 = l ++ [api_old.build old method u params data].
Proof.
  intros u l p l1 H. destruct (truthy u) eqn:Tu.
  - rewrite (old_request_unfold server old method VNone data params u u l)
      in H by (rewrite Tu; reflexivity).
    inversion H. reflexivity.
  - unfold api_old._request, bind, lift in H. rewrite Tu in H.
    discriminate H.
Qed.

(** C5, as amended: every follow-up request of a listing goes to the next
    link of the page before it and carries the original [params] again
    (in [api_old._request_paged_list] the method and [data] too): the
    requests of a listing over P1..Pn are the first request and one request
    per next link, all built with the same [params]. *)
Theorem follow_up_requests_resend_params (server : Server)
    (pages : list value) (last : value) (itemss : list (list value))
    (last_items : list value) (log log1 log2 : list Request) (url1 : value)
    (fuel : nat) :
  (List.length pages <= fuel)%nat ->
  page_shaped last = true ->
  next_href last = None ->
  (forall (self : Api.t) (resource : string) (params : value),
     follows (fun url => Api.request server self "get" url params VNone)
       log (VStr (Api._api_base self ++ resource)%string) pages log1 url1 ->
     Api.request server self "get" url1 params VNone log1
       = (Return last, log2) ->
     Forall2 (fun p l => page_items p = Some l) pages itemss ->
     page_items last = Some last_items ->
     snd (Api.get_items server fuel self resource params log)
     = log ++ map (fun url => mkRequest "get" url params VNone
                      [("Authorization",
                        ("Bearer " ++ Api._token self)%string)])
                (VStr (Api._api_base self ++ resource)%string :: hrefs pages))
  /\
  (forall (old : api_old.t) (method res : string) (data params : value),
     follows
       (fun url => api_old._request server old method VNone data params url)
       log (VStr (API_BASE ++ res)%string) pages log1 url1 ->
     api_old._request server old method VNone data params url1 log1
       = (Return last, log2) ->
     Forall2 (fun p l => subscript p "items" = Return (VList l))
       pages itemss ->
     subscript last "items" = Return (VList last_items) ->
     snd (api_old._request_paged_list server fuel old method (VStr res) data
            params log)
     = log ++ map (fun url => mkRequest method url params data
                      (api_old._headers old))
                (VStr (API_BASE ++ res)%string :: hrefs pages)).
Proof.
  intros Hfuel Hshape Hnone. split.
  - intros self resource params Hfol Hlast HF Hli.
    rewrite get_items_paged.
    rewrite (paged_concat _ _ (fun items => items) _ _ _ _ _ _ _ _ _ _
               Hfol Hlast Hshape Hnone (carry_page_items _ _ HF)
               (page_items_get _ _ Hli) Hfuel).
    cbn [snd]. rewrite (request_return_log _ _ _ _ _ _ _ _ _ Hlast).
    exact (follows_log _ (fun url => Api.build self "get" url params VNone)
             _ _ _ _ _ (request_return_log server self "get" params VNone)
             Hfol).
  - intros old method res data params Hfol Hlast HF Hli. rewrite old_paged.
    rewrite (paged_concat _ _ (fun items => VDict [("items", items)])
               _ _ _ _ _ _ _ _ _ _ Hfol Hlast Hshape Hnone HF Hli Hfuel).
    cbn [snd]. rewrite (old_request_return_log _ _ _ _ _ _ _ _ _ Hlast).
    exact (follows_log _
             (fun url => api_old.build old method url params data)
             _ _ _ _ _ (old_request_return_log server old method data params)
             Hfol).
Qed.

Lemma follow_up_requests_resend_params_witness :
  snd (Api.get_items sample_server 1 sample_api "devices"
         (VDict [("max", VStr "1")]) [])
  = [mkRequest "get" (VStr "https://api.smartthings.com/v1/devices")
       (VDict [("max", VStr "1")]) VNone
       [("Authorization", "Bearer secret-token")];
     mkRequest "get" (VStr "https://api.smartthings.com/v1/devices?page=2")
       (VDict [("max", VStr "1")]) VNone
       [("Authorization", "Bearer secret-token")]].
Proof.
  apply (proj1 (follow_up_requests_resend_params sample_server
                  [devices_page1] devices_page2
                  [[VDict [("id", VStr "d1")]]] [VDict [("id", VStr "d2")]]
                  []
                  [Api.build sample_api "get"
                     (VStr "https://api.smartthings.com/v1/devices")
                     (VDict [("max", VStr "1")]) VNone]
                  [Api.build sample_api "get"
                     (VStr "https://api.smartthings.com/v1/devices")
                     (VDict [("max", VStr "1")]) VNone;
                   Api.build sample_api "get"
                     (VStr "https://api.smartthings.com/v1/devices?page=2")
                     (VDict [("max", VStr "1")]) VNone]
                  (VStr "https://api.smartthings.com/v1/devices?page=2")
                  1 (le_n 1) eq_refl eq_refl)
           sample_api "devices" (VDict [("max", VStr "1")])).
  - eapply follows_cons;
      [reflexivity | reflexivity | discriminate | apply follows_nil].
  - reflexivity.
  - repeat constructor.
  - reflexivity.
Defined.

(** C5, as stated, fails: with [params] given, the request for the second
    page goes to the next link and carries the same [params] as the first,
    not [None]. *)
Lemma second_page_request_carries_params :
  exists r1 r2,
    snd (Api.get_items sample_server 1 sample_api "devices"
           (VDict [("max", VStr "1")]) []) = [r1; r2]
    /\ req_url r2 = VStr "https://api.smartthings.com/v1/devices?page=2"
    /\ req_params r2 = VDict [("max", VStr "1")]
    /\ req_params r2 = req_params r1
    /\ req_params r2 <> VNone.
Proof.
  eexists. eexists. split; [reflexivity |].
  repeat split; discriminate.
Qed.

(** C7: on a page-shaped value [_get_next_link] returns the value at
    [page._links.next.href] (the string there, when all three levels are
    present) and returns [None], raising nothing, when [_links] is absent,
    when [next] is absent, or when [href] is absent; and a listing whose
    page has no value at that path, a next link object without [href]
    included, ends with that page and makes no further request. *)
Theorem next_link_extraction (page : value) :
  page_shaped page = true ->
  (forall s, next_href page = Some (VStr s) ->
     Api._get_next_link page = Return (VStr s))
  /\ (field "_links" page = None -> Api._get_next_link page = Return VNone)
  /\ (forall links,
        field "_links" page = Some links -> field "next" links = None ->
        Api._get_next_link page = Return VNone)
  /\ (forall links next_link,
        field "_links" page = Some links ->
        field "next" links = Some next_link ->
        field "href" next_link = None ->
        Api._get_next_link page = Return VNone)
  /\ (next_href page = None ->
      forall (server : Server) (self : Api.t) (resource : string)
             (params : value) (log log1 : list Request) (fuel : nat),
        Api.request server self "get"
          (VStr (Api._api_base self ++ resource)%string) params VNone log
          = (Return page, log1) ->
        Api.get_items server fuel self resource params log
        = (Return (match field "items" page with
                   | Some v => v
                   | None => VList []
                   end), log1)).
Proof.
  intros Hshape. pose proof (get_next_link_path page Hshape) as Hpath.
  repeat split.
  - intros s Hs. rewrite Hpath, Hs. reflexivity.
  - intros H. rewrite Hpath. unfold next_href. rewrite H. reflexivity.
  - intros links Hl Hn. rewrite Hpath. unfold next_href. rewrite Hl, Hn.
    reflexivity.
  - intros links next_link Hl Hn Hh. rewrite Hpath. unfold next_href.
    rewrite Hl, Hn, Hh. reflexivity.
  - intros Hnone server self resource params log log1 fuel Hreq.
    unfold Api.get_items, bind, lift. rewrite Hreq.
    destruct page as [| | | | | | d]; try discriminate.
    cbn [dict_get field]. rewrite Hpath, Hnone.
    destruct fuel; reflexivity.
Qed.

Lemma next_link_extraction_witness :
  Api._get_next_link devices_page1
  = Return (VStr "https://api.smartthings.com/v1/devices?page=2")
  /\ Api._get_next_link devices_page2 = Return VNone
  /\ Api._get_next_link locations_page2 = Return VNone
  /\ Api.get_items sample_server 0 sample_api "locations?page=2" VNone []
     = (Return (VList [VDict [("locationId", VStr "l1")]]),
        [Api.build sample_api "get"
           (VStr "https://api.smartthings.com/v1/locations?page=2") VNone
           VNone]).
Proof.
  split; [| split; [| split]].
  - apply (proj1 (next_link_extraction devices_page1 eq_refl)). reflexivity.
  - apply (proj1 (proj2 (next_link_extraction devices_page2 eq_refl))).
    reflexivity.
  - apply (proj1 (proj2 (proj2 (proj2
             (next_link_extraction locations_page2 eq_refl))))
             (VDict [("next", VDict [("rel", VStr "next")])])
             (VDict [("rel", VStr "next")])); reflexivity.
  - apply (proj2 (proj2 (proj2 (proj2
             (next_link_extraction locations_page2 eq_refl))))
             eq_refl sample_server sample_api "locations?page=2" VNone [] _ 0%nat).
    reflexivity.
Defined.

(** X1: in [Api.get_items] a page without an [items] field adds nothing to the
    items gathered so far and the loop goes on with that page's next link;
    as the first page it starts the listing with no items. *)
Theorem get_items_page_without_items (server : Server) (self : Api.t)
    (params : value) (d : list (string * value)) (next_link : value)
    (log log1 : list Request) (fuel : nat) :
  assoc "items" d = None ->
  Api._get_next_link (VDict d) = Return next_link ->
  (forall url acc,
     truthy url = true ->
     Api.request server self "get" url params VNone log
       = (Return (VDict d), log1) ->
     Api.get_items_while server (S fuel) self params (VList acc) url log
     = Api.get_items_while server fuel self params (VList acc) next_link
         log1)
  /\
  (forall resource,
     Api.request server self "get"
       (VStr (Api._api_base self ++ resource)%string) params VNone log
       = (Return (VDict d), log1) ->
     Api.get_items server fuel self resource params log
     = Api.get_items_while server fuel self params (VList []) next_link
         log1).
Proof.
  intros Hi Hn. split.
  - intros url acc Ht Hreq. cbn [Api.get_items_while]. rewrite Ht.
    unfold bind, lift. rewrite Hreq, Hn. cbn [dict_get extend].
    rewrite Hi. cbn [iterate]. rewrite app_nil_r. reflexivity.
  - intros resource Hreq. unfold Api.get_items, bind, lift.
    rewrite Hreq, Hn. cbn [dict_get]. rewrite Hi. reflexivity.
Qed.

Lemma get_items_page_without_items_witness :
  Api.get_items sample_server 1 sample_api "locations" VNone []
  = Api.get_items_while sample_server 1 sample_api VNone (VList [])
      (VStr "https://api.smartthings.com/v1/locations?page=2")
      [Api.build sample_api "get"
         (VStr "https://api.smartthings.com/v1/locations") VNone VNone]
  /\ fst (Api.get_items sample_server 1 sample_api "locations" VNone [])
     = Return (VList [VDict [("locationId", VStr "l1")]]).
Proof.
  split.
  - apply (proj2 (get_items_page_without_items sample_server sample_api VNone
                    [("_links", VDict [("next", VDict [("href",
                        VStr "https://api.smartthings.com/v1/locations?page=2")])])]
                    (VStr "https://api.smartthings.com/v1/locations?page=2")
                    []
                    [Api.build sample_api "get"
                       (VStr "https://api.smartthings.com/v1/locations")
                       VNone VNone]
                    1 eq_refl eq_refl) "locations").
    reflexivity.
  - reflexivity.
Defined.

(** C6 on the synchronous engine: [_request_paged_list] reads
    [response['items']], so a first page without [items] makes it raise
    [KeyError] where [Api.get_items], given the same pages, counts no items
    for that page and follows its next link. *)
Theorem old_listing_raises_without_items :
  api_old._request_paged_list sample_server 1 sample_api_old "get"
    (VStr "locations") VNone VNone []
  = (Raise (KeyError "items"),
     [api_old.build sample_api_old "get"
        (VStr "https://api.smartthings.com/v1/locations") VNone VNone])
  /\
  Api.get_items sample_server 1 sample_api "locations" VNone []
  = (Return (VList [VDict [("locationId", VStr "l1")]]),
     [Api.build sample_api "get"
        (VStr "https://api.smartthings.com/v1/locations") VNone VNone;
      Api.build sample_api "get"
        (VStr "https://api.smartthings.com/v1/locations?page=2") VNone
        VNone]).
Proof. split; reflexivity. Qed.

(** The same in general: a successful response without [items] makes
    [_request_paged_list] raise [KeyError], as the first page and as any
    later one. *)
Lemma old_listing_key_error (server : Server) (old : api_old.t)
    (method res : string) (data params : value) (d : list (string * value))
    (log log1 : list Request) (fuel : nat) :
  assoc "items" d = None ->
  api_old._request server old method (VStr res) data params VNone log
    = (Return (VDict d), log1) ->
  api_old._request_paged_list server fuel old method (VStr res) data params
    log = (Raise (KeyError "items"), log1).
Proof.
  intros Hi Hreq. unfold api_old._request_paged_list, bind, lift.
  rewrite Hreq. cbn [subscript]. rewrite Hi. reflexivity.
Qed.

(** ** Further behaviour of single requests *)

(** X2: [Api.request] returns a value in two cases only: the response has
    status 200 and the value is its decoded body, or the status is below
    400 and not 200 and the value is [None].  No other response, and no
    failure of the transport, makes it return. *)
Theorem request_returns_body_only_for_200 (server : Server) (self : Api.t)
    (method : string) (url params data v : value) (log log' : list Request) :
  Api.request server self method url params data log = (Return v, log') ->
  exists r,
    server log (Api.build self method url params data) = inr r
    /\ log' = log ++ [Api.build self method url params data]
    /\ ((status r = 200 /\ json r = inr v)
        \/ (status r <> 200 /\ status r < 400 /\ v = VNone)).
Proof.
  rewrite request_unfold. cbv zeta.
  destruct (server log (Api.build self method url params data)) as [e | r];
    [discriminate |].
  intros H. exists r. split; [reflexivity |].
  destruct (status r =? 200) eqn:E200.
  - apply Z.eqb_eq in E200. destruct (json r) as [e | v0]; [discriminate |].
    inversion H. subst. split; [reflexivity |]. left.
    split; [assumption | reflexivity].
  - apply Z.eqb_neq in E200.
    destruct (existsb (Z.eqb (status r)) [400; 422; 429; 500]);
      [discriminate |].
    destruct (400 <=? status r) eqn:E400; [discriminate |].
    apply Z.leb_gt in E400. inversion H. subst.
    split; [reflexivity |]. right. repeat split; assumption.
Qed.

Lemma request_returns_body_only_for_200_witness :
  exists r,
    sample_server [] (Api.build sample_api "get"
                        (VStr "https://api.smartthings.com/v1/devices?page=2")
                        VNone VNone) = inr r
    /\ [Api.build sample_api "get"
          (VStr "https://api.smartthings.com/v1/devices?page=2") VNone VNone]
       = [] ++ [Api.build sample_api "get"
                  (VStr "https://api.smartthings.com/v1/devices?page=2")
                  VNone VNone]
    /\ ((status r = 200 /\ json r = inr devices_page2)
        \/ (status r <> 200 /\ status r < 400 /\ devices_page2 = VNone)).
Proof.
  apply (request_returns_body_only_for_200 sample_server sample_api "get"
           (VStr "https://api.smartthings.com/v1/devices?page=2") VNone VNone
           devices_page2 []).
  reflexivity.
Defined.

(** X3: for a response with status 200 [Api.request] returns the decoded
    body, and when the body does not decode it raises the exception of the
    decoding: unlike in the branch for 400, 422, 429 and 500, that exception
    is not caught. *)
Theorem request_200_decodes_or_raises (server : Server) (self : Api.t)
    (method : string) (url params data : value) (log : list Request)
    (r : Reply) :
  server log (Api.build self method url params data) = inr r ->
  status r = 200 ->
  (forall v, json r = inr v ->
     Api.request server self method url params data log
     = (Return v, log ++ [Api.build self method url params data]))
  /\ (forall e, json r = inl e ->
        Api.request server self method url params data log
        = (Raise e, log ++ [Api.build self method url params data])).
Proof.
  intros Hs H200. rewrite (request_200 _ _ _ _ _ _ _ _ Hs H200).
  split; intros x Hx; rewrite Hx; reflexivity.
Qed.

Lemma request_200_decodes_or_raises_witness :
  Api.request sample_server sample_api "get"
    (VStr "https://api.smartthings.com/v1/devices?page=2") VNone VNone []
  = (Return devices_page2,
     [] ++ [Api.build sample_api "get"
              (VStr "https://api.smartthings.com/v1/devices?page=2") VNone
              VNone])
  /\ Api.request (fun _ _ => inr (mkReply 200 "OK" [] (inl JSONDecodeError) []))
       sample_api "get" (VStr "https://api.smartthings.com/v1/devices") VNone
       VNone []
     = (Raise JSONDecodeError,
        [] ++ [Api.build sample_api "get"
                 (VStr "https://api.smartthings.com/v1/devices") VNone
                 VNone]).
Proof.
  split.
  - apply (proj1 (request_200_decodes_or_raises sample_server sample_api "get"
                    (VStr "https://api.smartthings.com/v1/devices?page=2")
                    VNone VNone [] (ok200 devices_page2) eq_refl eq_refl)).
    reflexivity.
  - apply (proj2 (request_200_decodes_or_raises
                    (fun _ _ =>
                       inr (mkReply 200 "OK" [] (inl JSONDecodeError) []))
                    sample_api "get"
                    (VStr "https://api.smartthings.com/v1/devices")
                    VNone VNone []
                    (mkReply 200 "OK" [] (inl JSONDecodeError) [])
                    eq_refl eq_refl)).
    reflexivity.
Defined.

(** X4: [api_old._request] raises [APIUnknownError] for every status from
    400 to 599 other than 401 and 403, the statuses 400, 422, 429 and 500
    included, and does not decode the body of such a response. *)
Theorem old_request_unknown_error (server : Server) (old : api_old.t)
    (method : string) (resource data params url target : value)
    (log : list Request) (r : Reply) :
  (if truthy url then Return url else str_add API_BASE resource)
    = Return target ->
  server log (api_old.build old method target params data) = inr r ->
  400 <= status r < 600 ->
  status r <> 401 ->
  status r <> 403 ->
  api_old._request server old method resource data params url log
  = (Raise APIUnknownError,
     log ++ [api_old.build old method target params data]).
Proof.
  intros Ht Hs Hrange H401 H403.
  rewrite (old_request_unfold _ _ _ _ _ _ _ _ _ Ht). cbv zeta. rewrite Hs.
  unfold api_old.ok.
  replace (400 <=? status r) with true by (symmetry; apply Z.leb_le; lia).
  replace (status r <? 600) with true by (symmetry; apply Z.ltb_lt; lia).
  replace (status r =? 401) with false by (symmetry; apply Z.eqb_neq; lia).
  replace (status r =? 403) with false by (symmetry; apply Z.eqb_neq; lia).
  reflexivity.
Qed.

Lemma old_request_unknown_error_witness :
  api_old._request edge_server sample_api_old "get" (VStr "devices/d1") VNone
    VNone VNone []
  = (Raise APIUnknownError,
     [] ++ [api_old.build sample_api_old "get"
              (VStr "https://api.smartthings.com/v1/devices/d1") VNone
              VNone]).
Proof.
  apply (old_request_unknown_error edge_server sample_api_old "get"
           (VStr "devices/d1") VNone VNone VNone
           (VStr "https://api.smartthings.com/v1/devices/d1") []
           (mkReply 422 "Unprocessable Entity" [] (inr rate_limited) [])).
  - reflexivity.
  - reflexivity.
  - simpl. lia.
  - simpl. lia.
  - simpl. lia.
Defined.

(** X5: for every status below 400, and for every status of 600 or more,
    [api_old._request] takes the response for a success and returns its
    decoded body; when the body does not decode (an empty body after a
    delete, say) the exception of the decoding is raised. *)
Theorem old_request_success_decodes (server : Server) (old : api_old.t)
    (method : string) (resource data params url target : value)
    (log : list Request) (r : Reply) :
  (if truthy url then Return url else str_add API_BASE resource)
    = Return target ->
  server log (api_old.build old method target params data) = inr r ->
  status r < 400 \/ 600 <= status r ->
  api_old._request server old method resource data params url log
  = (match json r with inr v => Return v | inl e => Raise e end,
     log ++ [api_old.build old method target params data]).
Proof.
  intros Ht Hs Hrange.
  rewrite (old_request_unfold _ _ _ _ _ _ _ _ _ Ht). cbv zeta. rewrite Hs.
  replace (api_old.ok r) with true; [reflexivity |].
  unfold api_old.ok. symmetry. apply negb_true_iff. apply andb_false_iff.
  destruct Hrange as [H | H];
    [left; apply Z.leb_gt; lia | right; apply Z.ltb_ge; lia].
Qed.

Lemma old_request_success_decodes_witness :
  api_old._request edge_server sample_api_old "delete" (VStr "apps/a1") VNone
    VNone VNone []
  = (Raise JSONDecodeError,
     [] ++ [api_old.build sample_api_old "delete"
              (VStr "https://api.smartthings.com/v1/apps/a1") VNone VNone]).
Proof.
  apply (old_request_success_decodes edge_server sample_api_old "delete"
           (VStr "apps/a1") VNone VNone VNone
           (VStr "https://api.smartthings.com/v1/apps/a1") []
           (mkReply 204 "No Content" [] (inl JSONDecodeError) [])).
  - reflexivity.
  - reflexivity.
  - left. simpl. lia.
Defined.

(** X6: [api_old._request] sends its request to [url] whenever [url] is
    truthy, whatever [resource] is; to [API_BASE + resource] when [url] is
    falsy and [resource] is a string; and when [url] is falsy and
    [resource] is not a string it raises [TypeError] before any request is
    sent. *)
Theorem old_request_target (server : Server) (old : api_old.t)
    (method : string) (resource data params url : value)
    (log : list Request) :
  (truthy url = true ->
   snd (api_old._request server old method resource data params url log)
   = log ++ [api_old.build old method url params data])
  /\ (truthy url = false ->
      forall res, resource = VStr res ->
        snd (api_old._request server old method resource data params url log)
        = log ++ [api_old.build old method (VStr (API_BASE ++ res)%string)
                    params data])
  /\ (truthy url = false ->
      (forall res, resource <> VStr res) ->
      api_old._request server old method resource data params url log
      = (Raise TypeError, log)).
Proof.
  split; [| split].
  - intros Ht.
    rewrite (old_request_unfold server old method resource data params url
               url log) by (rewrite Ht; reflexivity).
    reflexivity.
  - intros Ht res Hres. subst resource.
    rewrite (old_request_unfold server old method (VStr res) data params url
               (VStr (API_BASE ++ res)%string) log)
      by (rewrite Ht; reflexivity).
    reflexivity.
  - intros Ht Hres. unfold api_old._request, bind, lift. rewrite Ht.
    destruct resource; try reflexivity. exfalso. eapply Hres. reflexivity.
Qed.

(** ** Further behaviour of the listings *)

Lemma truthy_nonempty (u : string) : u <> "" -> truthy (VStr u) = true.
Proof. destruct u; [congruence | reflexivity]. Qed.

(** X7: [Api.get_items] has no guard against a chain of pages that never
    ends.  When the peer answers every request with a 200 page that carries
    a non-empty next link, the loop sends one more request for every unit of
    fuel and reaches no result, however much fuel it is given. *)
Theorem get_items_endless_chain (server : Server) (self : Api.t)
    (resource : string) (params : value) :
  (forall url log,
     exists r p l u,
       server log (Api.build self "get" url params VNone) = inr r
       /\ status r = 200
       /\ json r = inr p
       /\ page_items p = Some l
       /\ next_href p = Some (VStr u)
       /\ u <> "") ->
  forall fuel log,
    fst (Api.get_items server fuel self resource params log) = OutOfFuel
    /\ List.length (snd (Api.get_items server fuel self resource params log))
       = (List.length log + S fuel)%nat.
Proof.
  intros Hsrv.
  assert (Hreq : forall url log,
            exists p l u,
              Api.request server self "get" url params VNone log
              = (Return p, log ++ [Api.build self "get" url params VNone])
              /\ page_items p = Some l
              /\ next_href p = Some (VStr u) /\ u <> "").
  { intros url log.
    destruct (Hsrv url log) as (r & p & l & u & Hs & H200 & Hj & Hi & Hh & Hu).
    exists p, l, u. rewrite (request_200 _ _ _ _ _ _ _ _ Hs H200), Hj.
    repeat split; assumption. }
  assert (Hloop : forall fuel acc url log,
            truthy url = true ->
            fst (Api.get_items_while server fuel self params (VList acc) url
                   log) = OutOfFuel
            /\ List.length
                 (snd (Api.get_items_while server fuel self params
                         (VList acc) url log))
               = (List.length log + fuel)%nat).
  { induction fuel as [| fuel IH]; intros acc url log Ht;
      cbn [Api.get_items_while]; rewrite Ht.
    - split; [reflexivity | cbn [snd out_of_fuel]; lia].
    - destruct (Hreq url log) as (p & l & u & Hr & Hi & Hh & Hu).
      unfold bind, lift. rewrite Hr, (page_items_get _ _ Hi).
      cbn [extend iterate]. rewrite (get_next_link_href _ _ Hh).
      destruct (IH (acc ++ l) (VStr u)
                  (log ++ [Api.build self "get" url params VNone])
                  (truthy_nonempty _ Hu)) as [H1 H2].
      split; [exact H1 |]. rewrite H2, length_app. cbn [List.length]. lia. }
  intros fuel log. unfold Api.get_items.
  destruct (Hreq (VStr (Api._api_base self ++ resource)%string) log)
    as (p & l & u & Hr & Hi & Hh & Hu).
  unfold bind, lift. rewrite Hr, (page_items_get _ _ Hi).
  rewrite (get_next_link_href _ _ Hh).
  destruct (Hloop fuel l (VStr u)
              (log ++ [Api.build self "get"
                         (VStr (Api._api_base self ++ resource)%string)
                         params VNone])
              (truthy_nonempty _ Hu)) as [H1 H2].
  split; [exact H1 |]. rewrite H2, length_app. cbn [List.length]. lia.
Qed.

Lemma get_items_endless_chain_witness :
  fst (Api.get_items looping_server 5 sample_api "devices" VNone [])
  = OutOfFuel
  /\ List.length
       (snd (Api.get_items looping_server 5 sample_api "devices" VNone []))
     = (List.length (@nil Request) + 6)%nat.
Proof.
  apply (get_items_endless_chain looping_server sample_api "devices" VNone).
  intros url log.
  exists (ok200 looping_page), looping_page, [VDict [("id", VStr "d1")]],
    "https://api.smartthings.com/v1/devices".
  repeat split; try reflexivity. discriminate.
Defined.

(** X8: a next link whose [href] is present but falsy (the empty string,
    [null], zero) ends the listing like a missing one: [Api.get_items]
    returns what it has gathered and sends no further request. *)
Theorem falsy_href_ends_listing (server : Server) (self : Api.t)
    (params : value) (page v : value) :
  next_href page = Some v ->
  truthy v = false ->
  (forall resource log log1 fuel,
     Api.request server self "get"
       (VStr (Api._api_base self ++ resource)%string) params VNone log
       = (Return page, log1) ->
     Api.get_items server fuel self resource params log
     = (Return (match field "items" page with
                | Some items => items
                | None => VList []
                end), log1))
  /\
  (forall url acc l log log1 fuel,
     truthy url = true ->
     Api.request server self "get" url params VNone log = (Return page, log1) ->
     page_items page = Some l ->
     Api.get_items_while server (S fuel) self params (VList acc) url log
     = (Return (VList (acc ++ l)), log1)).
Proof.
  intros Hh Hv. pose proof (get_next_link_href _ _ Hh) as Hn. split.
  - intros resource log log1 fuel Hreq.
    unfold Api.get_items, bind, lift. rewrite Hreq.
    destruct page as [| | | | | | d]; try discriminate.
    cbn [dict_get field]. rewrite Hn.
    destruct fuel; cbn [Api.get_items_while]; rewrite Hv; reflexivity.
  - intros url acc l log log1 fuel Ht Hreq Hi.
    cbn [Api.get_items_while]. rewrite Ht. unfold bind, lift.
    rewrite Hreq, (page_items_get _ _ Hi). cbn [extend iterate]. rewrite Hn.
    destruct fuel; cbn [Api.get_items_while]; rewrite Hv; reflexivity.
Qed.

Lemma falsy_href_ends_listing_witness :
  Api.get_items edge_server 3 sample_api "empty-href" VNone []
  = (Return (VList [VInt 1]),
     [Api.build sample_api "get"
        (VStr "https://api.smartthings.com/v1/empty-href") VNone VNone]).
Proof.
  apply (proj1 (falsy_href_ends_listing edge_server sample_api VNone
                  (VDict [("items", VList [VInt 1]);
                          ("_links",
                           VDict [("next", VDict [("href", VStr "")])])])
                  (VStr "") eq_refl eq_refl)
           "empty-href" [] _ 3%nat).
  reflexivity.
Defined.

(** X9: when the first request of a listing is answered with a status below
    400 other than 200 (a 204, a 301), [Api.request] returns [None] and
    [Api.get_items] raises [AttributeError] on [resp.get]; nothing else is
    requested. *)
Theorem get_items_non_200_success (server : Server) (self : Api.t)
    (resource : string) (params : value) (log : list Request) (r : Reply)
    (fuel : nat) :
  server log (Api.build self "get"
                (VStr (Api._api_base self ++ resource)%string) params VNone)
    = inr r ->
  status r < 400 ->
  status r <> 200 ->
  Api.get_items server fuel self resource params log
  = (Raise (AttributeError "get"),
     log ++ [Api.build self "get"
               (VStr (Api._api_base self ++ resource)%string) params VNone]).
Proof.
  intros Hs Hlt Hne. unfold Api.get_items, bind.
  rewrite request_unfold. cbv zeta. rewrite Hs.
  replace (status r =? 200) with false by (symmetry; apply Z.eqb_neq; lia).
  replace (existsb (Z.eqb (status r)) [400; 422; 429; 500]) with false.
  - replace (400 <=? status r) with false by (symmetry; apply Z.leb_gt; lia).
    reflexivity.
  - symmetry. simpl.
    repeat match goal with
           | |- context [status r =? ?n] =>
               replace (status r =? n) with false
                 by (symmetry; apply Z.eqb_neq; lia)
           end.
    reflexivity.
Qed.

Lemma get_items_non_200_success_witness :
  Api.get_items sample_server 3 sample_api "devices/d1/commands" VNone []
  = (Raise (AttributeError "get"),
     [] ++ [Api.build sample_api "get"
              (VStr "https://api.smartthings.com/v1/devices/d1/commands")
              VNone VNone]).
Proof.
  apply (get_items_non_200_success sample_server sample_api
           "devices/d1/commands" VNone []
           (mkReply 204 "No Content" [] (inl ContentTypeError) []) 3).
  - reflexivity.
  - simpl. lia.
  - simpl. lia.
Defined.

(** X10: when the [items] of the first page is not a list and the page
    links to a next page, [Api.get_items] still requests that next page and
    only then raises [AttributeError], on [items.extend]. *)
Theorem first_page_items_not_a_list (server : Server) (self : Api.t)
    (resource : string) (params : value) (d : list (string * value))
    (v : value) (u : string) (page2 : value) (log log1 log2 : list Request)
    (fuel : nat) :
  assoc "items" d = Some v ->
  (forall l, v <> VList l) ->
  next_href (VDict d) = Some (VStr u) ->
  u <> "" ->
  Api.request server self "get"
    (VStr (Api._api_base self ++ resource)%string) params VNone log
    = (Return (VDict d), log1) ->
  Api.request server self "get" (VStr u) params VNone log1
    = (Return page2, log2) ->
  Api.get_items server (S fuel) self resource params log
  = (Raise (AttributeError "extend"), log2).
Proof.
  intros Hi Hnl Hh Hu Hr1 Hr2. unfold Api.get_items, bind, lift.
  rewrite Hr1. cbn [dict_get]. rewrite Hi, (get_next_link_href _ _ Hh).
  cbn [Api.get_items_while]. rewrite (truthy_nonempty _ Hu).
  unfold bind, lift. rewrite Hr2.
  destruct v; try reflexivity. exfalso. eapply Hnl. reflexivity.
Qed.

Lemma first_page_items_not_a_list_witness :
  Api.get_items edge_server 1 sample_api "null-items-linked" VNone []
  = (Raise (AttributeError "extend"),
     [Api.build sample_api "get"
        (VStr "https://api.smartthings.com/v1/null-items-linked") VNone VNone;
      Api.build sample_api "get"
        (VStr "https://api.smartthings.com/v1/more") VNone VNone]).
Proof.
  apply (first_page_items_not_a_list edge_server sample_api
           "null-items-linked" VNone
           [("items", VNone);
            ("_links", VDict [("next", VDict [("href",
               VStr "https://api.smartthings.com/v1/more")])])]
           VNone "https://api.smartthings.com/v1/more"
           (VDict [("items", VList [VInt 2])]) []
           [Api.build sample_api "get"
              (VStr "https://api.smartthings.com/v1/null-items-linked")
              VNone VNone]).
  - reflexivity.
  - discriminate.
  - reflexivity.
  - discriminate.
  - reflexivity.
  - reflexivity.
Defined.

(** X11: when a page after the first has an [items] that cannot be
    iterated ([null], a number, a boolean), [Api.get_items] raises
    [TypeError] and the items gathered from the pages before are lost. *)
Theorem later_page_items_not_iterable (server : Server) (self : Api.t)
    (params : value) (acc : list value) (url : value)
    (d : list (string * value)) (v : value) (log log1 : list Request)
    (fuel : nat) :
  truthy url = true ->
  Api.request server self "get" url params VNone log
    = (Return (VDict d), log1) ->
  assoc "items" d = Some v ->
  match v with
  | VNone | VBool _ | VInt _ | VFloat _ => True
  | _ => False
  end ->
  Api.get_items_while server (S fuel) self params (VList acc) url log
  = (Raise TypeError, log1).
Proof.
  intros Ht Hr Hi Hv. cbn [Api.get_items_while]. rewrite Ht.
  unfold bind, lift. rewrite Hr. cbn [dict_get]. rewrite Hi.
  destruct v; try contradiction; reflexivity.
Qed.

Lemma later_page_items_not_iterable_witness :
  Api.get_items_while edge_server 1 sample_api VNone
    (VList [VDict [("id", VStr "d1")]])
    (VStr "https://api.smartthings.com/v1/null-items") []
  = (Raise TypeError,
     [Api.build sample_api "get"
        (VStr "https://api.smartthings.com/v1/null-items") VNone VNone]).
Proof.
  apply (later_page_items_not_iterable edge_server sample_api VNone
           [VDict [("id", VStr "d1")]]
           (VStr "https://api.smartthings.com/v1/null-items")
           [("items", VNone)] VNone []).
  - reflexivity.
  - reflexivity.
  - reflexivity.
  - exact I.
Defined.

(** X12: when every page carries an [items] list, each page before the
    last a non-empty next link and the last none,
    [api_old._request_paged_list] returns a dict whose only key, [items],
    holds the items of all the pages in page order. *)
Theorem old_listing_concatenates_pages (server : Server) (old : api_old.t)
    (method res : string) (data params : value) (pages : list value)
    (last : value) (itemss : list (list value)) (last_items : list value)
    (log log1 log2 : list Request) (url1 : value) (fuel : nat) :
  follows
    (fun url => api_old._request server old method VNone data params url)
    log (VStr (API_BASE ++ res)%string) pages log1 url1 ->
  api_old._request server old method VNone data params url1 log1
    = (Return last, log2) ->
  page_shaped last = true ->
  next_href last = None ->
  Forall2 (fun p l => subscript p "items" = Return (VList l)) pages itemss ->
  subscript last "items" = Return (VList last_items) ->
  (List.length pages <= fuel)%nat ->
  api_old._request_paged_list server fuel old method (VStr res) data params
    log
  = (Return (VDict [("items",
                     VList (List.concat (itemss ++ [last_items])))]), log2).
Proof.
  intros Hfol Hlast Hshape Hnone HF Hli Hfuel. rewrite old_paged.
  exact (paged_concat _ _ (fun items => VDict [("items", items)])
           _ _ _ _ _ _ _ _ _ _ Hfol Hlast Hshape Hnone HF Hli Hfuel).
Qed.

Lemma old_listing_concatenates_pages_witness :
  api_old._request_paged_list edge_server 1 sample_api_old "get"
    (VStr "devices") VNone (VDict [("max", VStr "1")]) []
  = (Return (VDict [("items", VList [VDict [("id", VStr "d1")];
                                      VDict [("id", VStr "d2")]])]),
     [api_old.build sample_api_old "get"
        (VStr "https://api.smartthings.com/v1/devices")
        (VDict [("max", VStr "1")]) VNone;
      api_old.build sample_api_old "get"
        (VStr "https://api.smartthings.com/v1/devices?page=2")
        (VDict [("max", VStr "1")]) VNone]).
Proof.
  apply (old_listing_concatenates_pages edge_server sample_api_old "get"
           "devices" VNone (VDict [("max", VStr "1")])
           [devices_page1] devices_page2
           [[VDict [("id", VStr "d1")]]] [VDict [("id", VStr "d2")]]
           []
           [api_old.build sample_api_old "get"
              (VStr "https://api.smartthings.com/v1/devices")
              (VDict [("max", VStr "1")]) VNone]
           [api_old.build sample_api_old "get"
              (VStr "https://api.smartthings.com/v1/devices")
              (VDict [("max", VStr "1")]) VNone;
            api_old.build sample_api_old "get"
              (VStr "https://api.smartthings.com/v1/devices?page=2")
              (VDict [("max", VStr "1")]) VNone]
           (VStr "https://api.smartthings.com/v1/devices?page=2") 1).
  - eapply follows_cons;
      [reflexivity | reflexivity | discriminate | apply follows_nil].
  - reflexivity.
  - reflexivity.
  - reflexivity.
  - repeat constructor.
  - reflexivity.
  - simpl. lia.
Defined.

(** ** The endpoint methods *)

Lemma append_empty_r (s : string) : (s ++ "")%string = s.
Proof.
  induction s as [| c s IH]; [reflexivity | simpl; rewrite IH; reflexivity].
Qed.

(** Evaluates [str_format] on a template of the module, leaving the
    arguments as they are. *)
Ltac fill_template :=
  unfold str_format;
  match goal with
  | |- context [parse_template ?t None] =>
      let ps := eval vm_compute in (parse_template t None) in
      change (parse_template t None) with ps
  end;
  cbn [fill kwarg];
  repeat match goal with
         | |- context [String.eqb ?a ?b] =>
             let r := eval vm_compute in (String.eqb a b) in
             change (String.eqb a b) with r
         end;
  cbn [fill kwarg]; rewrite ?append_empty_r.

(** The paths of the module, filled: each id goes into its place as it is,
    braces, slashes and all. *)
Lemma templates_filled (a b : string) :
  str_format API_LOCATION [("location_id", a)]
    = Return ("locations/" ++ a)%string
  /\ str_format API_DEVICE [("device_id", a)]
     = Return ("devices/" ++ a)%string
  /\ str_format API_DEVICE_STATUS [("device_id", a)]
     = Return ("devices/" ++ a ++ "/status")%string
  /\ str_format API_DEVICE_COMMAND [("device_id", a)]
     = Return ("devices/" ++ a ++ "/commands")%string
  /\ str_format API_APP [("app_id", a)] = Return ("apps/" ++ a)%string
  /\ str_format API_APP_OAUTH [("app_id", a)]
     = Return ("apps/" ++ a ++ "/oauth")%string
  /\ str_format API_APP_SETTINGS [("app_id", a)]
     = Return ("apps/" ++ a ++ "/settings")%string
  /\ str_format API_INSTALLEDAPP [("installed_app_id", a)]
     = Return ("installedapps/" ++ a)%string
  /\ str_format API_SUBSCRIPTIONS [("installed_app_id", a)]
     = Return ("installedapps/" ++ a ++ "/subscriptions")%string
  /\ str_format API_SUBSCRIPTION
       [("installed_app_id", a); ("subscription_id", b)]
     = Return ("installedapps/" ++ a ++ "/subscriptions/" ++ b)%string.
Proof. repeat split; fill_template; reflexivity. Qed.

Lemma formatted_request_unfold (server : Server) (old : api_old.t)
    (method template : string) (kwargs : list (string * string))
    (data : value) (res : string) (log : list Request) :
  str_format template kwargs = Return res ->
  api_old_methods.formatted_request server old method template kwargs data log
  = api_old._request server old method VNone data VNone
      (VStr (API_BASE ++ res)%string) log.
Proof.
  intros H. unfold api_old_methods.formatted_request, bind, lift. rewrite H.
  apply old_first_request.
Qed.

(** X13: each method of [api_old] that addresses one resource is one request
    through [_request]: with its verb, to [API_BASE] followed by its path
    with the ids put in as they are, with the body it was given (none for
    get and delete) and without params.  The methods for one resource share
    its url: [get_app], [update_app] and [delete_app];
    [get_installedapp] and [delete_installedapp]; [create_subscription] and
    [delete_all_subscriptions]; [get_subscription] and
    [delete_subscription]. *)
Theorem old_methods_route (server : Server) (old : api_old.t)
    (id id2 : string) (data : value) (log : list Request) :
  let direct := fun method path body =>
    api_old._request server old method VNone body VNone
      (VStr (API_BASE ++ path)%string) log in
  api_old_methods.get_device server old id log
    = direct "get" ("devices/" ++ id)%string VNone
  /\ api_old_methods.get_device_status server old id log
     = direct "get" ("devices/" ++ id ++ "/status")%string VNone
  /\ api_old_methods.get_app server old id log
     = direct "get" ("apps/" ++ id)%string VNone
  /\ api_old_methods.create_app server old data log
     = direct "post" "apps" data
  /\ api_old_methods.update_app server old id data log
     = direct "put" ("apps/" ++ id)%string data
  /\ api_old_methods.delete_app server old id log
     = direct "delete" ("apps/" ++ id)%string VNone
  /\ api_old_methods.get_app_settings server old id log
     = direct "get" ("apps/" ++ id ++ "/settings")%string VNone
  /\ api_old_methods.update_app_settings server old id data log
     = direct "put" ("apps/" ++ id ++ "/settings")%string data
  /\ api_old_methods.get_app_oauth server old id log
     = direct "get" ("apps/" ++ id ++ "/oauth")%string VNone
  /\ api_old_methods.update_app_oauth server old id data log
     = direct "put" ("apps/" ++ id ++ "/oauth")%string data
  /\ api_old_methods.get_installedapp server old id log
     = direct "get" ("installedapps/" ++ id)%string VNone
  /\ api_old_methods.delete_installedapp server old id log
     = direct "delete" ("installedapps/" ++ id)%string VNone
  /\ api_old_methods.create_subscription server old id data log
     = direct "post" ("installedapps/" ++ id ++ "/subscriptions")%string data
  /\ api_old_methods.delete_all_subscriptions server old id log
     = direct "delete" ("installedapps/" ++ id ++ "/subscriptions")%string
         VNone
  /\ api_old_methods.get_subscription server old id id2 log
     = direct "get"
         ("installedapps/" ++ id ++ "/subscriptions/" ++ id2)%string VNone
  /\ api_old_methods.delete_subscription server old id id2 log
     = direct "delete"
         ("installedapps/" ++ id ++ "/subscriptions/" ++ id2)%string VNone.
Proof.
  cbv zeta.
  destruct (templates_filled id id2)
    as (_ & Hdev & Hstat & _ & Happ & Hoauth & Hset & Hinst & Hsubs & Hsub).
  repeat split;
    try (apply formatted_request_unfold; assumption).
Qed.

(** X14: [post_command] sends one POST to
    [API_BASE + "devices/<device_id>/commands"] whose body holds one command
    with its component, capability and command; the command has an
    [arguments] entry exactly when [args] is truthy, so an empty list of
    arguments (or [None]) is left out of the body. *)
Theorem post_command_request (server : Server) (old : api_old.t)
    (device_id : string) (capability command args component : value)
    (log : list Request) :
  snd (api_old_methods.post_command server old device_id capability command
         args component log)
  = log ++
    [mkRequest "post"
       (VStr (API_BASE ++ "devices/" ++ device_id ++ "/commands")%string)
       VNone
       (VDict [("commands",
                VList [VDict ([("component", component);
                               ("capability", capability);
                               ("command", command)]
                              ++ (if truthy args then [("arguments", args)]
                                  else []))])])
       (api_old._headers old)].
Proof.
  unfold api_old_methods.post_command. cbv zeta.
  rewrite (formatted_request_unfold server old "post" API_DEVICE_COMMAND
             [("device_id", device_id)] _
             ("devices/" ++ device_id ++ "/commands")%string log)
    by (fill_template; reflexivity).
  rewrite (old_request_unfold server old "post" VNone _ VNone
             (VStr (API_BASE ++ "devices/" ++ device_id ++ "/commands")%string)
             (VStr (API_BASE ++ "devices/" ++ device_id ++ "/commands")%string)
             log) by reflexivity.
  cbv zeta. cbn [snd].
  unfold api_old.build, api_old_methods.post_command_data.
  destruct (truthy args); reflexivity.
Qed.

(** The four listing methods of [api_old] run the paged listing with
    GET and no body on [devices], [apps], [installedapps] and
    [installedapps/<id>/subscriptions]; only [get_devices] passes params on,
    to every page request. *)
Theorem old_listing_methods_route (server : Server) (old : api_old.t)
    (id : string) (params : value) (fuel : nat) (log : list Request) :
  api_old_methods.get_devices server fuel old params log
    = api_old._request_paged_list server fuel old "get" (VStr "devices")
        VNone params log
  /\ api_old_methods.get_apps server fuel old log
     = api_old._request_paged_list server fuel old "get" (VStr "apps") VNone
         VNone log
  /\ api_old_methods.get_installedapps server fuel old log
     = api_old._request_paged_list server fuel old "get"
         (VStr "installedapps") VNone VNone log
  /\ api_old_methods.get_subscriptions server fuel old id log
     = api_old._request_paged_list server fuel old "get"
         (VStr ("installedapps/" ++ id ++ "/subscriptions")%string) VNone
         VNone log.
Proof.
  split; [reflexivity |]. split; [reflexivity |]. split; [reflexivity |].
  unfold api_old_methods.get_subscriptions, bind, lift.
  destruct (templates_filled id id)
    as (_ & _ & _ & _ & _ & _ & _ & _ & Hsubs & _).
  rewrite Hsubs. reflexivity.
Qed.

Lemma append_inj_l (p a b : string) :
  (p ++ a)%string = (p ++ b)%string -> a = b.
Proof.
  induction p as [| c p IH]; simpl; intros H; [exact H |].
  inversion H. apply IH. assumption.
Qed.

(** X15: [Api.get_location] is one GET through [Api.request] whose url
    argument is the base url of the object followed by [locations/] and the
    id as it is, without params or body.  [get_location] neither escapes
    nor normalises the id: two calls that pass the same url to
    [session.request] were given the same id.  (This is about the url
    passed; what the transport then puts on the wire is not modelled.) *)
Theorem get_location_request (server : Server) (self : Api.t)
    (location_id : string) (log : list Request) :
  Api_methods.get_location server self location_id log
    = Api.request server self "get"
        (VStr (Api._api_base self ++ "locations/" ++ location_id)%string)
        VNone VNone log
  /\ forall other_id r1 r2,
       snd (Api_methods.get_location server self other_id log) = log ++ [r1] ->
       snd (Api_methods.get_location server self location_id log)
         = log ++ [r2] ->
       req_url r1 = req_url r2 ->
       other_id = location_id.
Proof.
  assert (Hget : forall id,
            Api_methods.get_location server self id log
            = Api.request server self "get"
                (VStr (Api._api_base self ++ "locations/" ++ id)%string)
                VNone VNone log).
  { intros id. unfold Api_methods.get_location, bind, lift.
    destruct (templates_filled id id) as (Hloc & _).
    rewrite Hloc. reflexivity. }
  split; [apply Hget |].
  intros other_id r1 r2 H1 H2 Hurl.
  rewrite Hget, request_log in H1. rewrite Hget, request_log in H2.
  apply app_inv_head in H1. apply app_inv_head in H2.
  inversion H1 as [E1]. inversion H2 as [E2]. subst r1 r2.
  cbn [req_url Api.build] in Hurl. inversion Hurl as [Hs].
  apply append_inj_l in Hs. apply (append_inj_l "locations/") in Hs.
  exact Hs.
Qed.
